(** * iblrig: preflight checklist (iblrig/prefc.py) and installer (install.py)

    A shallow embedding of the two scripts and the properties their
    specification states about them.

    Python values are modelled by small inductive types, dictionaries by
    association lists in insertion order (the order in which Python iterates
    them), exceptions by an error result, and every effect on the outside
    world (log records, device calls, shell commands, prompts) by an event
    appended to a trace that is threaded through a state-and-error monad. *)

From Stdlib Require Import String Ascii List ZArith Bool Lia.
Import ListNotations.

Local Open Scope string_scope.
Local Open Scope Z_scope.

(** ** Python values, exceptions and results *)

Module Py.

(** Modelled from the spec: the parameter store ([iblrig.params], which is not
    part of the sources at hand) is a flat key-value file.  A value is a
    string, a number, or [None] when it has not been filled in. *)
Inductive pyval :=
| PNone
| PStr (s : string)
| PInt (n : Z).

(** [bool(v)] *)
Definition truthy (v : pyval) : bool :=
  match v with
  | PNone => false
  | PStr s => negb (String.eqb s "")
  | PInt n => negb (n =? 0)
  end.

Inductive exn :=
| AssertionError
| AttributeError
| TypeError
| ValueError
| KeyError
| OverflowError
| EOFError
| FileNotFoundError
| RecursionError
| External (what : string).   (* raised by a collaborator outside the sources *)

Inductive result (A : Type) :=
| Ok (a : A)
| Raise (e : exn).
Arguments Ok {A} a.
Arguments Raise {A} e.

Definition is_ok {A} (r : result A) : bool :=
  match r with Ok _ => true | Raise _ => false end.

(** [pat in s] for two strings: [pat] occurs in [s] as a contiguous run. *)
Fixpoint str_in (pat s : string) : bool :=
  String.prefix pat s
  || match s with
     | EmptyString => false
     | String _ s' => str_in pat s'
     end.

(** *** Dictionaries

    A [dict] keeps its items in insertion order.  [dict_set] is [d[k] = v]:
    an existing key keeps its position, a new key goes to the end. *)
Definition dict (V : Type) := list (string * V).

Definition dict_get {V} (d : dict V) (k : string) : option V :=
  match find (fun kv => String.eqb (fst kv) k) d with
  | Some kv => Some (snd kv)
  | None => None
  end.

Fixpoint dict_set {V} (d : dict V) (k : string) (v : V) : dict V :=
  match d with
  | [] => [(k, v)]
  | (k', v') :: r =>
      if String.eqb k' k then (k, v) :: r else (k', v') :: dict_set r k v
  end.

Definition dict_keys {V} (d : dict V) : list string := map fst d.
Definition dict_values {V} (d : dict V) : list V := map snd d.

Definition mem (k : string) (ks : list string) : bool :=
  existsb (String.eqb k) ks.

(** [a.keys() == b.keys()]: key views compare as sets. *)
Definition keys_eq (a b : list string) : bool :=
  (length a =? length b)%nat && forallb (fun k => mem k b) a.

(** [dict.fromkeys(d)] over the keys of a dictionary: every key, value [None]. *)
Definition dict_fromkeys {V X} (d : dict V) : dict (option X) :=
  map (fun kv => (fst kv, None)) d.

End Py.
Import Py.

(** ** Calendar dates: [datetime.date], [timedelta], [relativedelta] *)

Module Dates.

Record date := mkdate { year : Z; month : Z; day : Z }.

Definition MINYEAR := 1.
Definition MAXYEAR := 9999.

Definition _is_leap (y : Z) : bool :=
  (y mod 4 =? 0) && (negb (y mod 100 =? 0) || (y mod 400 =? 0)).

Definition _DAYS_IN_MONTH (m : Z) : Z :=
  match m with
  | 1 => 31 | 2 => 28 | 3 => 31 | 4 => 30 | 5 => 31 | 6 => 30
  | 7 => 31 | 8 => 31 | 9 => 30 | 10 => 31 | 11 => 30 | 12 => 31
  | _ => 0
  end.

Definition _DAYS_BEFORE_MONTH (m : Z) : Z :=
  match m with
  | 1 => 0 | 2 => 31 | 3 => 59 | 4 => 90 | 5 => 120 | 6 => 151
  | 7 => 181 | 8 => 212 | 9 => 243 | 10 => 273 | 11 => 304 | 12 => 334
  | _ => 0
  end.

Definition b2z (b : bool) : Z := if b then 1 else 0.

Definition _days_in_month (y m : Z) : Z :=
  if (m =? 2) && _is_leap y then 29 else _DAYS_IN_MONTH m.

Definition _days_before_year (y : Z) : Z :=
  let y' := y - 1 in y' * 365 + y' / 4 - y' / 100 + y' / 400.

Definition _days_before_month (y m : Z) : Z :=
  _DAYS_BEFORE_MONTH m + b2z ((2 <? m) && _is_leap y).

Definition _ymd2ord (y m d : Z) : Z :=
  _days_before_year y + _days_before_month y m + d.

Definition _DI400Y := 146097.
Definition _DI100Y := 36524.
Definition _DI4Y := 1461.
Definition _MAXORDINAL := 3652059.

Definition _ord2ymd (n0 : Z) : date :=
  let n := n0 - 1 in
  let n400 := n / _DI400Y in let n := n mod _DI400Y in
  let y := n400 * 400 + 1 in
  let n100 := n / _DI100Y in let n := n mod _DI100Y in
  let n4 := n / _DI4Y in let n := n mod _DI4Y in
  let n1 := n / 365 in let n := n mod 365 in
  let y := y + n100 * 100 + n4 * 4 + n1 in
  if (n1 =? 4) || (n100 =? 4) then mkdate (y - 1) 12 31
  else
    let leapyear := (n1 =? 3) && (negb (n4 =? 24) || (n100 =? 3)) in
    let m := Z.shiftr (n + 50) 5 in
    let preceding := _DAYS_BEFORE_MONTH m + b2z ((2 <? m) && leapyear) in
    if n <? preceding then
      let m' := m - 1 in
      let preceding' :=
        preceding - (_DAYS_IN_MONTH m' + b2z ((m' =? 2) && leapyear)) in
      mkdate y m' (n - preceding' + 1)
    else mkdate y m (n - preceding + 1).

Definition toordinal (d : date) : Z := _ymd2ord (year d) (month d) (day d).

(** The checks of the [date(y, m, d)] constructor. *)
Definition valid_date (y m d : Z) : bool :=
  (MINYEAR <=? y) && (y <=? MAXYEAR) && (1 <=? m) && (m <=? 12)
  && (1 <=? d) && (d <=? _days_in_month y m).

Definition make_date (y m d : Z) : result date :=
  if valid_date y m d then Ok (mkdate y m d) else Raise ValueError.

(** [a < b] on dates compares (year, month, day). *)
Definition date_lt (a b : date) : bool :=
  (year a <? year b)
  || ((year a =? year b)
      && ((month a <? month b)
          || ((month a =? month b) && (day a <? day b)))).

(** The two kinds of threshold the checklist uses. *)
Inductive delta :=
| timedelta (days : Z)
| relativedelta (months : Z).

(** [date + timedelta(days=n)]: through the ordinal, out of range is an
    [OverflowError]. *)
Definition add_timedelta (d : date) (n : Z) : result date :=
  let o := toordinal d + n in
  if (0 <? o) && (o <=? _MAXORDINAL) then Ok (_ord2ymd o) else Raise OverflowError.

(** [date + relativedelta(months=n)] for [1 <= n <= 12] (dateutil): the month
    is advanced, the year carried, the day clipped to the length of the target
    month; the replacement date is then built by the [date] constructor. *)
Definition add_relativedelta (d : date) (n : Z) : result date :=
  let m := month d + n in
  let '(y, m) := if 12 <? m then (year d + 1, m - 12) else (year d, m) in
  let dd := Z.min (_days_in_month y m) (day d) in
  make_date y m dd.

Definition date_add (d : date) (t : delta) : result date :=
  match t with
  | timedelta n => add_timedelta d n
  | relativedelta n => add_relativedelta d n
  end.

(** *** [datetime.strptime(v, "%Y-%m-%d").date()]

    The format compiles to the regular expression
    [(\d\d\d\d)-(1[0-2]|0[1-9]|[1-9])-(3[01]|[12]\d|0[1-9]|[1-9]| [1-9])]
    matched at the start of the text; text left over after the match, or no
    match, is a [ValueError].  Strings are ASCII here. *)

Definition is_digit (c : ascii) : bool :=
  let n := nat_of_ascii c in (48 <=? n)%nat && (n <=? 57)%nat.

Definition digit (c : ascii) : Z := Z.of_nat (nat_of_ascii c) - 48.

Definition in_range (lo hi : Z) (c : ascii) : bool :=
  is_digit c && (lo <=? digit c) && (digit c <=? hi).

Definition is_dash (c : ascii) : bool := Ascii.eqb c "-"%char.

(** [%Y-]: four digits and the dash. *)
Definition parse_year (l : list ascii) : option (Z * list ascii) :=
  match l with
  | a :: b :: c :: d :: e :: r =>
      if is_digit a && is_digit b && is_digit c && is_digit d && is_dash e
      then Some (1000 * digit a + 100 * digit b + 10 * digit c + digit d, r)
      else None
  | _ => None
  end.

(** [%m-]: the alternatives in order, each one kept only if the dash follows. *)
Definition parse_month (l : list ascii) : option (Z * list ascii) :=
  match l with
  | a :: b :: c :: r =>
      if Ascii.eqb a "1"%char && in_range 0 2 b && is_dash c
      then Some (10 + digit b, r)
      else if Ascii.eqb a "0"%char && in_range 1 9 b && is_dash c
      then Some (digit b, r)
      else if in_range 1 9 a && is_dash b then Some (digit a, c :: r)
      else None
  | a :: b :: r =>
      if in_range 1 9 a && is_dash b then Some (digit a, r) else None
  | _ => None
  end.

(** [%d]: the first alternative that matches a prefix wins. *)
Definition parse_day (l : list ascii) : option (Z * list ascii) :=
  let two :=
    match l with
    | a :: b :: r =>
        if Ascii.eqb a "3"%char && in_range 0 1 b then Some (30 + digit b, r)
        else if in_range 1 2 a && is_digit b then Some (10 * digit a + digit b, r)
        else if Ascii.eqb a "0"%char && in_range 1 9 b then Some (digit b, r)
        else None
    | _ => None
    end in
  match two with
  | Some x => Some x
  | None =>
      match l with
      | a :: r =>
          if in_range 1 9 a then Some (digit a, r)
          else match r with
               | b :: r' =>
                   if Ascii.eqb a " "%char && in_range 1 9 b
                   then Some (digit b, r') else None
               | [] => None
               end
      | [] => None
      end
  end.

Definition strptime_str (s : string) : result date :=
  match parse_year (list_ascii_of_string s) with
  | None => Raise ValueError
  | Some (y, r1) =>
      match parse_month r1 with
      | None => Raise ValueError
      | Some (m, r2) =>
          match parse_day r2 with
          | Some (d, []) => make_date y m d
          | _ => Raise ValueError
          end
      end
  end.

(** A value that is not a string is a [TypeError]. *)
Definition strptime (v : pyval) : result date :=
  match v with
  | PStr s => strptime_str s
  | _ => Raise TypeError
  end.

End Dates.
Import Dates.


(** ** Effects: events, the outside world, and the monad *)

Module Effects.

Inductive device := RotaryEncoder | BpodSerial | BpodApi | F2TTL.

Definition device_eqb (a b : device) : bool :=
  match a, b with
  | RotaryEncoder, RotaryEncoder | BpodSerial, BpodSerial
  | BpodApi, BpodApi | F2TTL, F2TTL => true
  | _, _ => false
  end.

(** What [_grep_param_dict] hands back: a sub-dictionary or one bare value. *)
Inductive grepped :=
| GDict (d : dict pyval)
| GVal (v : pyval).

(** Every call that leaves the two scripts. *)
Inductive call :=
| ONE_new                                   (* ONE() *)
| PathExists (p : string)                   (* Path(p).exists() *)
| PathGlob (p : string)                     (* list(Path(p).glob("*")) *)
| Open (d : device) (port : grepped)        (* the constructor of a handle *)
| SetZeroPosition                           (* m.set_zero_position() *)
| SerialWrite (payload : list Byte.byte)    (* bpod.write(...) *)
| BpodModules                               (* [x.name for x in bpod.modules] *)
| SerIsOpen                                 (* f.ser.isOpen() *)
| Close (d : device)                        (* .close() of a handle *)
| QueryDevices                              (* import sounddevice; sd.query_devices() *)
| System (cmd : string)                     (* os.system(cmd) *)
| CondaEnvList                              (* conda env list --json, its "envs" *)
| Rmtree (p : string)                       (* shutil.rmtree(p, ignore_errors=True) *)
| SubprocessCall (args : list string)       (* subprocess.call(args) *)
| Getcwd
| Chdir (p : string)
| Mkdir (p : string).

Inductive event :=
| Called (c : call) (raised : option exn)   (* an outside call and how it ended *)
| Warning (msg : string)                    (* log.warning, its fixed text *)
| WarningKeys (msg : string) (ks : list string)
| Strptime (v : pyval)                      (* an attempt to parse a date *)
| Print (s : string)                        (* print, the text without line breaks *)
| PrintExc (e : exn)                        (* print(e) of a caught exception *)
| Input (s : string).                       (* a line read by input() *)

(** The outside world: a state [W] and how each call answers in it. *)
Record Oracle (W : Type) := {
  perform : call -> W -> option exn * W;
  ask_bool : call -> W -> result bool * W;
  ask_list : call -> W -> result (list string) * W;
  ask_str : call -> W -> result string * W;
  platform : string;                         (* sys.platform *)
  IBLRIG_ROOT_PATH : string;                 (* Path.cwd() at import *)
  iblrig_params_path : string;               (* ROOT.parent / "iblrig_params" *)
  path_join : list string -> string;         (* os.path.join *)
  re_compile : string -> result (string -> bool);  (* re.compile(pat).match *)
  nested_calls : nat                         (* see [Install.frames] *)
}.
Arguments perform {W} _ _ _.
Arguments ask_bool {W} _ _ _.
Arguments ask_list {W} _ _ _.
Arguments ask_str {W} _ _ _.
Arguments platform {W} _.
Arguments IBLRIG_ROOT_PATH {W} _.
Arguments iblrig_params_path {W} _.
Arguments path_join {W} _ _.
Arguments re_compile {W} _ _.
Arguments nested_calls {W} _.

(** The newest event is at the head of [trace]. *)
Record state (W : Type) := mkstate { world : W; trace : list event }.
Arguments mkstate {W} _ _.
Arguments world {W} _.
Arguments trace {W} _.

Definition M (W A : Type) := state W -> result A * state W.

Definition ret {W A} (a : A) : M W A := fun s => (Ok a, s).

Definition bind {W A B} (m : M W A) (k : A -> M W B) : M W B :=
  fun s =>
    match m s with
    | (Ok a, s') => k a s'
    | (Raise e, s') => (Raise e, s')
    end.

Definition raise {W A} (e : exn) : M W A := fun s => (Raise e, s).

(** [try: body except BaseException as e: handler] *)
Definition try_except {W A} (body : M W A) (handler : exn -> M W A) : M W A :=
  fun s =>
    match body s with
    | (Ok a, s') => (Ok a, s')
    | (Raise e, s') => handler e s'
    end.

Definition lift {W A} (r : result A) : M W A := fun s => (r, s).

Definition emit {W} (e : event) : M W unit :=
  fun s => (Ok tt, mkstate (world s) (e :: trace s)).

End Effects.
Import Effects.

Declare Scope py_scope.
Delimit Scope py_scope with py.
Notation "x <- m ;; k" := (bind m (fun x => k))
  (at level 61, m at next level, right associativity) : py_scope.
Notation "m ;; k" := (bind m (fun _ => k))
  (at level 61, right associativity) : py_scope.
Local Open Scope py_scope.

Section Calls.
Context {W : Type} (O : Oracle W).

Definition called (c : call) (r : option exn) (w : W) (s : state W) : state W :=
  mkstate w (Called c r :: trace s).

Definition do_call (c : call) : M W unit :=
  fun s =>
    match perform O c (world s) with
    | (None, w) => (Ok tt, called c None w s)
    | (Some e, w) => (Raise e, called c (Some e) w s)
    end.

Definition answered {A} (c : call) (r : result A) (w : W) (s : state W)
  : result A * state W :=
  match r with
  | Ok a => (Ok a, called c None w s)
  | Raise e => (Raise e, called c (Some e) w s)
  end.

Definition query_bool (c : call) : M W bool :=
  fun s => let '(r, w) := ask_bool O c (world s) in answered c r w s.

Definition query_list (c : call) : M W (list string) :=
  fun s => let '(r, w) := ask_list O c (world s) in answered c r w s.

Definition query_str (c : call) : M W string :=
  fun s => let '(r, w) := ask_str O c (world s) in answered c r w s.
End Calls.

Definition warning {W} (msg : string) : M W unit := emit (Warning msg).
Definition print {W} (msg : string) : M W unit := emit (Print msg).

(** ** iblrig/prefc.py *)

Module Prefc.

(** [{k: pardict[k] for k in pardict if pattern in k}]: one key at a time. *)
Definition matching_step (pattern : string) (pardict out : dict pyval) (k : string)
  : dict pyval :=
  if str_in pattern k
  then match dict_get pardict k with
       | Some v => dict_set out k v
       | None => out
       end
  else out.

Definition matching (pattern : string) (pardict : dict pyval) : dict pyval :=
  fold_left (matching_step pattern pardict) (dict_keys pardict) [].

(** [_grep_param_dict]; [pardict] is what [params.load_params_file()] loads. *)
Definition _grep_param_dict (pardict : dict pyval) (pattern : string) : grepped :=
  let out := matching pattern pardict in
  if (length out =? 1)%nat
  then match dict_values out with
       | v :: _ => GVal v
       | [] => GDict out
       end
  else GDict out.

(** [g.values()], [g.keys()]: only a dictionary has them. *)
Definition as_dict (g : grepped) : result (dict pyval) :=
  match g with
  | GDict d => Ok d
  | GVal _ => Raise AttributeError
  end.

(** [g[k]] *)
Definition getitem (g : grepped) (k : string) : result pyval :=
  match g with
  | GDict d => match dict_get d k with
               | Some v => Ok v
               | None => Raise KeyError
               end
  | GVal _ => Raise TypeError
  end.

(** [needle in g] *)
Definition contains (needle : string) (g : grepped) : result bool :=
  match g with
  | GDict d => Ok (mem needle (dict_keys d))
  | GVal (PStr s) => Ok (str_in needle s)
  | GVal _ => Raise TypeError
  end.

(** [dict.fromkeys(g)] needs something to iterate over. *)
Definition fromkeys_iterable (g : grepped) : result unit :=
  match g with
  | GDict _ => Ok tt
  | GVal (PStr _) => Ok tt
  | GVal _ => Raise TypeError
  end.

(** [Path(v)] *)
Definition Path (v : pyval) : result string :=
  match v with
  | PStr s => Ok s
  | _ => Raise TypeError
  end.

Definition thresh : dict delta :=
  [ ("F2TTL_CALIBRATION_DATE", timedelta 7);
    ("SCREEN_FREQ_TEST_DATE", relativedelta 4);
    ("SCREEN_LUX_DATE", relativedelta 4);
    ("WATER_CALIBRATION_DATE", relativedelta 1);
    ("BPOD_TTL_TEST_DATE", relativedelta 4) ].

(** Truth value of an entry of [out]: [None] or a boolean. *)
Definition flag (v : option bool) : bool :=
  match v with Some b => b | None => false end.

(** [struct.pack("cB", b":", n)] for [n] 0 and 1. *)
Definition pack_colon_0 : list Byte.byte := [Byte.x3a; Byte.x00].
Definition pack_colon_1 : list Byte.byte := [Byte.x3a; Byte.x01].

Section Probes.
Context {W : Type} (O : Oracle W) (pardict : dict pyval).

Definition params_comports_ok : M W bool :=
  subdict <- lift (as_dict (_grep_param_dict pardict "COM")) ;;
  let out := forallb truthy (dict_values subdict) in
  (if negb out then warning "Not all comports are present" else ret tt) ;;
  ret out.

(** The dictionary comprehension over [strptime], in iteration order. *)
Fixpoint parse_dates (d : dict pyval) : M W (dict date) :=
  match d with
  | [] => ret []
  | (k, v) :: r =>
      emit (Strptime v) ;;
      x <- lift (strptime v) ;;
      r' <- parse_dates r ;;
      ret ((k, x) :: r')
  end.

(** [for k in subdict: out[k] = subdict[k] + thresh[k] < today] *)
Fixpoint compare_dates (today : date) (subdict : dict date)
         (ks : list string) (out : dict (option bool))
  : M W (dict (option bool)) :=
  match ks with
  | [] => ret out
  | k :: r =>
      d <- lift (match dict_get subdict k with
                 | Some d => Ok d | None => Raise KeyError end) ;;
      t <- lift (match dict_get thresh k with
                 | Some t => Ok t | None => Raise KeyError end) ;;
      e <- lift (date_add d t) ;;
      compare_dates today subdict r (dict_set out k (Some (date_lt e today)))
  end.

(** [today] is [datetime.datetime.now().date()]. *)
Definition calibration_dates_ok (today : date) : M W bool :=
  let g := _grep_param_dict pardict "DATE" in
  lift (fromkeys_iterable g) ;;
  subdict <- lift (as_dict g) ;;
  (if keys_eq (dict_keys thresh) (dict_keys subdict)
   then ret tt else raise AssertionError) ;;
  let cal_dates_exist := forallb truthy (dict_values subdict) in
  out <- (if negb cal_dates_exist
          then warning "Not all calibration dates are present" ;;
               ret (dict_fromkeys subdict)
          else dates <- parse_dates subdict ;;
               compare_dates today dates (dict_keys dates)
                             (dict_fromkeys dates)) ;;
  let ok := forallb flag (dict_values out) in
  (if negb ok
   then emit (WarningKeys "Outdated calibrations"
                (dict_keys (filter (fun kv => negb (flag (snd kv))) out)))
   else ret tt) ;;
  ret ok.

Definition alyx_ok : M W bool :=
  try_except (do_call O ONE_new ;; ret true)
             (fun e => warning "Can't connect to Alyx." ;; ret false).

Definition local_server_ok : M W bool :=
  let pars := _grep_param_dict pardict "" in
  v <- lift (getitem pars "DATA_FOLDER_REMOTE") ;;
  p <- lift (Path v) ;;
  out <- query_bool O (PathExists p) ;;
  (if negb out then warning "Can't connect to local_server." else ret tt) ;;
  ret out.

Definition rig_data_folder_ok : M W bool :=
  let pars := _grep_param_dict pardict "" in
  v <- lift (getitem pars "DATA_FOLDER_LOCAL") ;;
  p <- lift (Path v) ;;
  out <- query_bool O (PathExists p) ;;
  (if negb out then warning "Can't connect to local_server." else ret tt) ;;
  ret out.

(** One guarded block of [alyx_server_rig_ok]: the bit is added when the
    block ends without an exception. *)
Definition guarded (body : M W unit) (bit : Z) (msg : string) (acc : Z) : M W Z :=
  try_except (body ;; ret (acc + bit)) (fun e => warning msg ;; ret acc).

Definition list_folder (pars : grepped) (key : string) : M W unit :=
  v <- lift (getitem pars key) ;;
  p <- lift (Path v) ;;
  do_call O (PathGlob p).

(** The integer that [alyx_server_rig_ok] hands to [bin]. *)
Definition alyx_server_rig : M W Z :=
  a <- guarded (do_call O ONE_new) 4 "Can't connect to Alyx." 0 ;;
  let pars := _grep_param_dict pardict "" in
  a <- guarded (list_folder pars "DATA_FOLDER_REMOTE") 2
               "Can't connect to local_server." a ;;
  guarded (list_folder pars "DATA_FOLDER_LOCAL") 1
          "Can't find rig data folder." a.

(** [bin(n)]: the text [0b...] of the integer. *)
Fixpoint bits (p : positive) : string :=
  match p with
  | xH => "1"
  | xO q => bits q ++ "0"
  | xI q => bits q ++ "1"
  end.

Definition bin (n : Z) : string :=
  match n with
  | Z0 => "0b0"
  | Zpos p => "0b" ++ bits p
  | Zneg p => "-0b" ++ bits p
  end.

Definition alyx_server_rig_ok : M W string :=
  n <- alyx_server_rig ;;
  ret (bin n).

Definition rotary_encoder_ok : M W bool :=
  try_except
    (let pars := _grep_param_dict pardict "" in
     port <- lift (getitem pars "COM_ROTARY_ENCODER") ;;
     do_call O (Open RotaryEncoder (GVal port)) ;;
     do_call O SetZeroPosition ;;
     do_call O (Close RotaryEncoder) ;;
     ret true)
    (fun e => warning "Can't connect to Rotary Encoder." ;; ret false).

Definition bpod_ok : M W bool :=
  try_except
    (let pars := _grep_param_dict pardict "" in
     port <- lift (getitem pars "COM_BPOD") ;;
     do_call O (Open BpodSerial (GVal port)) ;;
     do_call O (SerialWrite pack_colon_0) ;;
     do_call O (SerialWrite pack_colon_1) ;;
     do_call O (Close BpodSerial) ;;
     ret true)
    (fun e => warning "Can't connect to Bpod." ;; ret false).

Definition expected_modules (ephys_rig : bool) : list string :=
  if ephys_rig
  then ["RotaryEncoder1"; "AmbientModule1"; "SoundCard1"]
  else ["RotaryEncoder1"; "AmbientModule1"].

Definition bpod_modules_ok : M W bool :=
  ephys_rig <- lift (contains "ephys" (_grep_param_dict pardict "NAME")) ;;
  let expected := expected_modules ephys_rig in
  try_except
    (let comport := _grep_param_dict pardict "COM_BPOD" in
     do_call O (Open BpodApi comport) ;;
     mods <- query_list O BpodModules ;;
     do_call O (Close BpodApi) ;;
     let oks := map (fun x => mem x mods) expected in
     if forallb (fun b => b) oks then ret true
     else emit (WarningKeys "Missing modules"
                  (filter (fun x => negb (mem x mods)) expected)) ;;
          ret false)
    (fun e => warning "Can't check modules from Bpod." ;; ret false).

(** [out] is assigned from [f.ser.isOpen()] before [f.close()] runs, so a
    [close] that raises leaves [out] as it was: the handler of the one
    [try] block is written out at the two places where [out] differs. *)
Definition f2ttl_ok : M W bool :=
  let handler (out : bool) :=
    fun e : exn => warning "Can't connect to Frame2TTL." ;; ret out in
  try_except
    (let pars := _grep_param_dict pardict "" in
     port <- lift (getitem pars "COM_F2TTL") ;;
     do_call O (Open F2TTL (GVal port)) ;;
     out <- query_bool O SerIsOpen ;;
     try_except (do_call O (Close F2TTL) ;; ret out) (handler out))
    (handler false).

(** [check_rig] is [pass]: it returns [None]. *)
Definition check_rig : M W (option bool) := ret None.

Definition xonar_ok : M W bool :=
  ephys_rig <- lift (contains "ephys" (_grep_param_dict pardict "NAME")) ;;
  if ephys_rig then ret true
  else
    try_except
      (devices <- query_list O QueryDevices ;;
       let xonar := filter (str_in "XONAR SOUND CARD(64)") devices in
       ret (length xonar =? 1)%nat)
      (fun e => warning "Can't query system sound devices." ;; ret false).

Definition HarpSoundCard_ok : M W (option bool) :=
  ephys_rig <- lift (contains "ephys" (_grep_param_dict pardict "NAME")) ;;
  ret None.

End Probes.

(** Whether the handle of device [d] is open after the events of [tr]
    (newest first): the latest successful [Open] or [Close] of [d] decides. *)
Fixpoint is_open (d : device) (tr : list event) : bool :=
  match tr with
  | [] => false
  | Called (Open d' _) None :: r => if device_eqb d d' then true else is_open d r
  | Called (Close d') None :: r => if device_eqb d d' then false else is_open d r
  | _ :: r => is_open d r
  end.

Definition is_strptime (e : event) : bool :=
  match e with Strptime _ => true | _ => false end.

(** Whether some outside call among the events raised. *)
Definition raised (tr : list event) : bool :=
  existsb (fun ev => match ev with Called _ (Some _) => true | _ => false end) tr.

(** Whether the handle of [d] was opened among the events. *)
Definition opened (d : device) (tr : list event) : bool :=
  existsb (fun ev => match ev with
                     | Called (Open d' _) None => device_eqb d d'
                     | _ => false
                     end) tr.

Definition was_called (c : call -> bool) (tr : list event) : bool :=
  existsb (fun ev => match ev with Called c' None => c c' | _ => false end) tr.

Definition is_ser_is_open (c : call) : bool :=
  match c with SerIsOpen => true | _ => false end.

(** *** The three checks of [alyx_server_rig_ok], observed one by one

    [settle] is the outcome of one check: whether it ended without an
    exception, and the state it leaves (a failed check logs its warning). *)
Section Checks.
Context {W : Type} (O : Oracle W) (pardict : dict pyval).

Definition settle (msg : string) (r : result unit * state W) : bool * state W :=
  match r with
  | (Ok _, s') => (true, s')
  | (Raise _, s') => (false, mkstate (world s') (Warning msg :: trace s'))
  end.

Definition three_checks (s : state W) : bool * bool * bool * state W :=
  let pars := _grep_param_dict pardict "" in
  let '(meta, s1) := settle "Can't connect to Alyx." (do_call O ONE_new s) in
  let '(remote, s2) :=
    settle "Can't connect to local_server."
           (list_folder O pars "DATA_FOLDER_REMOTE" s1) in
  let '(local, s3) :=
    settle "Can't find rig data folder."
           (list_folder O pars "DATA_FOLDER_LOCAL" s2) in
  (meta, remote, local, s3).
(** What listing the folder stored under [key] comes to in the world [w],
    read off the store and the outside world alone: whether the lookup, the
    path and [glob] all succeed, the world afterwards, and the events left
    (newest first), [msg] being the warning of a failure. *)
Definition folder_listed (pars : grepped) (key msg : string) (w : W)
  : bool * W * list event :=
  match getitem pars key with
  | Raise _ => (false, w, [Warning msg])
  | Ok v =>
      match Path v with
      | Raise _ => (false, w, [Warning msg])
      | Ok p =>
          match perform O (PathGlob p) w with
          | (None, w') => (true, w', [Called (PathGlob p) None])
          | (Some e, w') =>
              (false, w', [Warning msg; Called (PathGlob p) (Some e)])
          end
      end
  end.

(** [returns run f]: the run of a probe ends without an exception and its
    value is [f] of the events it leaves. *)
Definition returns (run : result bool * state W) (f : list event -> bool) : Prop :=
  fst run = Ok (f (trace (snd run))).

(** [returns_under run f]: the run ends without an exception, and with [True]
    only if [f] holds of the events it leaves. *)
Definition returns_under (run : result bool * state W) (f : list event -> bool)
  : Prop :=
  match run with
  | (Ok b, s') => implb b (f (trace s')) = true
  | (Raise _, _) => False
  end.

(** [passes_on key w run]: the run of a probe without a handler, started in
    the world [w], ends as the lookup of [key], [Path] and [exists()] end:
    what they raise reaches the caller. *)
Definition passes_on (key : string) (w : W) (run : result bool * state W) : Prop :=
  fst run =
  match getitem (_grep_param_dict pardict "") key with
  | Raise e => Raise e
  | Ok v => match Path v with
            | Raise e => Raise e
            | Ok p => fst (ask_bool O (PathExists p) w)
            end
  end.
End Checks.

(** What the loop of [calibration_dates_ok] stores for the key and date [kd]:
    whether the date plus the threshold of the key lies before [today]. *)
Definition older_than_window (today : date) (kd : string * date) : bool :=
  match dict_get thresh (fst kd) with
  | Some t => match date_add (snd kd) t with
              | Ok e => date_lt e today
              | Raise _ => false
              end
  | None => false
  end.

(** The entry of [out] for [kd] once the loop has passed it. *)
Definition flagged (today : date) (kd : string * date) : string * option bool :=
  (fst kd, Some (older_than_window today kd)).

(** The key has a threshold and adding it to the date stays in range. *)
Definition addable (kd : string * date) : bool :=
  match dict_get thresh (fst kd) with
  | Some t => is_ok (date_add (snd kd) t)
  | None => false
  end.

(** [dates] are the values of [sub] as [strptime] reads them, key by key. *)
Definition parsed_as (sub : dict pyval) (dates : dict date) : Prop :=
  Forall2 (fun kv kd => fst kv = fst kd /\ strptime (snd kv) = Ok (snd kd)) sub dates.

(** Bit 2, bit 1 and bit 0 as the specification assigns them. *)
Definition status (meta remote local : bool) : Z :=
  4 * b2z meta + 2 * b2z remote + b2z local.

End Prefc.

(** ** iblrig/prefc.py: [list_serial_ports] *)

Module Ports.

(** A device object of the WMI query: [getattr(x, name, None)], the value
    already as the text that [%s] prints. *)
Definition wmi_object := string -> option string.

(** The WMI collaborator: the import of [win32com.client], the connection to
    the service, and the query [SELECT * FROM Win32_PnPEntity].  Only what
    the function prints is recorded in the trace. *)
Record Wmi (W : Type) := {
  import_win32com : W -> option exn * W;
  connect_server : W -> option exn * W;
  exec_query : W -> result (list wmi_object) * W
}.
Arguments import_win32com {W} _ _.
Arguments connect_server {W} _ _.
Arguments exec_query {W} _ _.

(** The names printed by the last loop. *)
Definition names : list string :=
  [ "Availability"; "Caption"; "ClassGuid"; "ConfigManagerUserConfig";
    "CreationClassName"; "Description"; "DeviceID"; "ErrorCleared";
    "ErrorDescription"; "InstallDate"; "LastErrorCode"; "Manufacturer"; "Name";
    "PNPDeviceID"; "PowerManagementCapabilities "; "PowerManagementSupported";
    "Service"; "Status"; "StatusInfo"; "SystemCreationClassName"; "SystemName" ].

(** [fields]: the same names and a last one made of dashes. *)
Definition fields : list string := (names ++ ["----------"])%list.

(** [{y: getattr(d, y, None) for y in fields}] *)
Definition attributes (d : wmi_object) : dict (option string) :=
  map (fun y => (y, d y)) fields.

Definition lookup_nat {V} (i : nat) (d : list (nat * V)) : option V :=
  match find (fun kv => Nat.eqb (fst kv) i) d with
  | Some kv => Some (snd kv)
  | None => None
  end.

(** [for i, d in enumerate(devices): dev_dicts[i].update(...)]: [update]
    changes the dictionary stored under [i], which must be there. *)
Fixpoint update_all (dev_dicts : list (nat * dict (option string))) (i : nat)
         (devices : list wmi_object) : result (list (nat * dict (option string))) :=
  match devices with
  | [] => Ok dev_dicts
  | d :: r =>
      match lookup_nat i dev_dicts with
      | None => Raise KeyError
      | Some old =>
          let updated :=
            fold_left (fun acc kv => dict_set acc (fst kv) (snd kv))
                      (attributes d) old in
          update_all (map (fun kv => if Nat.eqb (fst kv) i then (i, updated) else kv)
                          dev_dicts)
                     (S i) r
      end
  end.

(** ['-' * 60] *)
Fixpoint dashes (n : nat) : string :=
  match n with
  | O => ""
  | S n' => "-" ++ dashes n'
  end.

(** What the last loop prints for one item, oldest line first. *)
Definition lines_of (item : wmi_object) : list string :=
  dashes 60
  :: flat_map (fun name => match item name with
                           | Some a => [name ++ ": " ++ a]
                           | None => []
                           end) names.

Section ListPorts.
Context {W : Type} (S : Wmi W).

Definition wmi_call (f : W -> option exn * W) : M W unit :=
  fun s => match f (world s) with
           | (None, w) => (Ok tt, mkstate w (trace s))
           | (Some e, w) => (Raise e, mkstate w (trace s))
           end.

Definition wmi_query : M W (list wmi_object) :=
  fun s => let '(r, w) := exec_query S (world s) in (r, mkstate w (trace s)).

Fixpoint print_lines (ls : list string) : M W unit :=
  match ls with
  | [] => ret tt
  | l :: r => print l ;; print_lines r
  end.

Fixpoint print_items (items : list wmi_object) : M W unit :=
  match items with
  | [] => ret tt
  | item :: r => print_lines (lines_of item) ;; print_items r
  end.

Definition list_serial_ports : M W unit :=
  wmi_call (import_win32com S) ;;
  wmi_call (connect_server S) ;;
  devices <- wmi_query ;;
  (* the two [bla] are computed and dropped *)
  let dev_dicts := [] in
  lift (update_all dev_dicts 0 devices) ;;
  items <- wmi_query ;;
  print_items items.
End ListPorts.

End Ports.

(** ** install.py *)

Module Install.

Definition is_windows (platform : string) : bool :=
  mem platform ["Windows"; "windows"; "win32"].

Fixpoint repeat_string (s : string) (n : nat) : string :=
  match n with
  | O => ""
  | S n' => s ++ repeat_string s n'
  end.

(** ["N" * 79] *)
Definition bar : string := repeat_string "N" 79.

(** A response given on the command line: [False] ([None] here) or a string;
    [not resp] also holds for the empty string. *)
Definition given (resp : option string) : option string :=
  match resp with
  | Some r => if String.eqb r "" then None else Some r
  | None => None
  end.

(** [r in RESPONSES] with [RESPONSES = ["y", "n", False]]. *)
Definition in_RESPONSES (r : option string) : bool :=
  match r with
  | None => true
  | Some s => String.eqb s "y" || String.eqb s "n"
  end.

(** How a response is printed. *)
Definition shown (r : option string) : string :=
  match r with Some s => s | None => "False" end.

Record args := mkargs {
  env_name : string;
  use_conda : bool;
  reinstall_response : option string;
  config_response : option string;
  bonsai_response : option string
}.

Section Steps.
Context {W : Type} (O : Oracle W).

Definition print_exc (e : exn) : M W unit := emit (PrintExc e).

(** [input()] on the lines [inp] still to be typed. *)
Definition input (inp : list string) : M W string :=
  match inp with
  | [] => raise EOFError
  | a :: _ => emit (Input a) ;; ret a
  end.

Definition get_env_folder (env_name : string) : M W (option string) :=
  all_envs <- query_list O CondaEnvList ;;
  pat <- lift (re_compile O ("^.+" ++ env_name ++ "$")) ;;
  let env := filter pat all_envs in
  ret (match env with e :: _ => Some e | [] => None end).

(** The two paths that [get_env_python] builds in the folder [env]. *)
Definition env_executable (env : string) (rpip : bool) : string :=
  let '(pip, python) :=
    if is_windows (platform O)
    then (path_join O [env; "Scripts"; "pip.exe"], path_join O [env; "python.exe"])
    else (path_join O [env; "bin"; "pip"], path_join O [env; "bin"; "python"]) in
  if negb rpip then python else pip.

Definition get_env_python (env_name : string) (rpip : bool) : M W string :=
  env <- get_env_folder env_name ;;
  match env with
  | None => raise TypeError          (* os.path.join(None, ...) *)
  | Some env => ret (env_executable env rpip)
  end.

(** The body of one [try] of [check_dependencies]. *)
Definition attempt (announce cmd done : string) : M W unit :=
  print announce ;;
  do_call O (System cmd) ;;
  print done.

Definition check_dependencies : M W Z :=
  print "INFO: Checking for dependencies:" ;;
  print bar ;;
  conda <- try_except
             (attempt "--->Installing mamba"
                      "conda install mamba -y -n base -c conda-forge"
                      "--->mamba installed... OK" ;;
              ret "mamba")
             (fun e => print_exc e ;;
                       print "Could not install mamba, using conda..." ;;
                       ret "conda") ;;
  r <- try_except
         (attempt ("--->Cleaning up " ++ conda ++ " cache")
                  "mamba clean -q -y --all"
                  ("--->" ++ conda ++ " cache... OK") ;;
          ret None)
         (fun e => print_exc e ;;
                   print ("Could not clean " ++ conda
                          ++ " cache, aborting install...") ;;
                   ret (Some 1)) ;;
  match r with
  | Some code => ret code
  | None =>
      r <- try_except
             (attempt "--->Updating base environment python"
                      (conda ++ " update -q -y -n base -c defaults python")
                      "--->python update... OK" ;;
              ret None)
             (fun e => print_exc e ;;
                       print "Could not update python, aborting install..." ;;
                       ret (Some 1)) ;;
      match r with
      | Some code => ret code
      | None =>
          try_except
            (attempt ("--->Updating base " ++ conda)
                     (conda ++ " update -q -y -n base -c defaults conda")
                     "--->{conda} update... OK")
            (fun e => print_exc e ;;
                      print "Could not update conda, aborting install..." ;;
                      raise FileNotFoundError) ;;
          try_except
            (attempt "--->Upgrading pip..."
                     (conda ++ " install -q -y -n base -c defaults pip --force-reinstall")
                     "--->pip upgrade... OK")
            (fun e => print_exc e ;;
                      print "Could not upgrade pip, aborting install..." ;;
                      raise FileNotFoundError) ;;
          try_except
            (attempt "--->Installing git"
                     (conda ++ " install -q -y git")
                     "--->git... OK")
            (fun e => print_exc e ;;
                      print "Not found: git, aborting install..." ;;
                      raise FileNotFoundError) ;;
          try_except
            (attempt "--->Updating remaning base packages..."
                     (conda ++ " update -q -y -n base -c defaults --all")
                     "--->Update of remaining packages... OK")
            (fun e => print_exc e ;;
                      print ("Could not update remaining packages, "
                             ++ "trying to continue install...")) ;;
          print bar ;;
          print "All dependencies OK." ;;
          ret 0
      end
  end.

(** *** The three prompts

    Each prompting procedure calls itself again after an invalid answer,
    without the command-line response.  Its body is written once, over
    [ask] (how the answer is obtained: [input()] or the response), [retry]
    (the call of itself), [rest] (the lines left to be typed once the answer
    is in) and [unread] (the lines left when no answer is asked for);
    [.._again] is the procedure called without a response.

    The interpreter bounds the depth of nested calls
    ([sys.getrecursionlimit()], 1000 unless it was changed) and raises
    [RecursionError] at the call that would exceed it.  How many calls that
    leaves below [main] depends on the interpreter and on how the script was
    started, so it comes from the outside: [frames] calls of one procedure
    can be open at once, the one made by [main], one made by the procedure
    itself, and [nested_calls O] more.  (Importing the modules of the script
    has nested deeper than two calls under the same limit.)  [.._again]
    takes the number of calls that can still be opened, its own included. *)

Definition frames : nat := S (S (nested_calls O)).

Definition create_environment_body (env_name : string)
           (ask : M W string) (retry : M W (list string))
           (rest unread : list string)
  : M W (list string) :=
  print ("INFO: Installing " ++ env_name ++ ":") ;;
  print bar ;;
  env <- get_env_folder env_name ;;
  print (match env with Some e => e | None => "None" end) ;;
  let create_command := "mamba create -y -n " ++ env_name ++ " python=3.7.11" in
  let remove_command := "mamba env remove -y -n " ++ env_name in
  match given env with
  | Some env =>
      print ("Found pre-existing environment in " ++ env
             ++ " Do you want to reinstall the environment? (y/n):") ;;
      user_input <- ask ;;
      print user_input ;;
      if String.eqb user_input "y" then
        do_call O (System remove_command) ;;
        do_call O (Rmtree env) ;;
        retry
      else if negb (String.eqb user_input "n") && negb (String.eqb user_input "y") then
        print "Please answer 'y' or 'n'" ;;
        retry
      else ret rest
  | None =>
      do_call O (System create_command) ;;
      print bar ;;
      print (env_name ++ " installed.") ;;
      ret unread
  end.

Fixpoint create_environment_again (depth : nat) (env_name : string)
         (inp : list string) : M W (list string) :=
  match depth with
  | 0%nat => raise RecursionError
  | S depth' =>
      create_environment_body env_name (input inp)
        (create_environment_again depth' env_name (tl inp))
        (tl inp) inp
  end.

Definition create_environment (env_name : string) (use_conda_yaml : bool)
           (resp : option string) (inp : list string) : M W (list string) :=
  if use_conda_yaml then
    do_call O (System "mamba env create -f environment.yaml") ;;
    ret inp
  else
    match given resp with
    | Some r => create_environment_body env_name (ret r)
                  (create_environment_again (pred frames) env_name inp) inp inp
    | None => create_environment_again frames env_name inp
    end.

Definition install_iblrig (env_name : string) : M W unit :=
  print ("INFO: Checking iblrig dependencies in " ++ env_name ++ ":") ;;
  print bar ;;
  pip <- get_env_python env_name true ;;
  do_call O (System (pip ++ " install --no-warn-script-location -e .")) ;;
  print bar ;;
  print ("iblrig dependencies installed in " ++ env_name ++ ".").

Definition setup_default_config (python : string) : M W unit :=
  do_call O (SubprocessCall [python; "setup_default_config.py"; iblrig_params_path O]).

Definition configure_iblrig_params_body (env_name : string)
           (ask : M W string) (retry : M W (list string))
           (rest unread : list string)
  : M W (list string) :=
  print "INFO: Setting up default project config in ../iblrig_params:" ;;
  print bar ;;
  iblenv <- get_env_folder env_name ;;
  match iblenv with
  | None => raise ValueError
  | Some _ =>
      python <- get_env_python env_name false ;;
      exists_ <- query_bool O (PathExists (iblrig_params_path O)) ;;
      if exists_ then
        print ("Found previous configuration in " ++ iblrig_params_path O
               ++ " Do you want to reset to default config? (y/n)") ;;
        user_input <- ask ;;
        print user_input ;;
        if String.eqb user_input "n" then ret rest
        else if String.eqb user_input "y" then
          setup_default_config python ;;
          ret rest
        else if negb (String.eqb user_input "n")
                && negb (String.eqb user_input "y") then
          print "Please select either y of n" ;;
          retry
        else ret rest
      else
        do_call O (Mkdir (iblrig_params_path O)) ;;
        setup_default_config python ;;
        ret unread
  end.

Fixpoint configure_iblrig_params_again (depth : nat) (env_name : string)
         (inp : list string) : M W (list string) :=
  match depth with
  | 0%nat => raise RecursionError
  | S depth' =>
      configure_iblrig_params_body env_name (input inp)
        (configure_iblrig_params_again depth' env_name (tl inp))
        (tl inp) inp
  end.

Definition configure_iblrig_params (env_name : string) (resp : option string)
           (inp : list string) : M W (list string) :=
  match given resp with
  | Some r => configure_iblrig_params_body env_name (ret r)
                (configure_iblrig_params_again (pred frames) env_name inp) inp inp
  | None => configure_iblrig_params_again frames env_name inp
  end.

(** What [install_bonsai] does on the answer [y]. *)
Definition install_bonsai_yes : M W unit :=
  if negb (is_windows (platform O)) then
    print "Skipping Bonsai installation on non-Windows platforms"
  else
    here <- query_str O Getcwd ;;
    do_call O (Chdir (path_join O [IBLRIG_ROOT_PATH O; "Bonsai"])) ;;
    do_call O (SubprocessCall ["setup.bat"]) ;;
    do_call O (Chdir here).

Definition install_bonsai_body
           (ask : M W string) (retry : M W (list string)) (rest : list string)
  : M W (list string) :=
  print "Do you want to install Bonsai now? (y/n):" ;;
  user_input <- ask ;;
  print user_input ;;
  if String.eqb user_input "y" then
    install_bonsai_yes ;;
    ret rest
  else if negb (String.eqb user_input "n") && negb (String.eqb user_input "y") then
    print "Please answer 'y' or 'n'" ;;
    retry
  else ret rest.

Fixpoint install_bonsai_again (depth : nat) (inp : list string)
  : M W (list string) :=
  match depth with
  | 0%nat => raise RecursionError
  | S depth' =>
      install_bonsai_body (input inp) (install_bonsai_again depth' (tl inp))
        (tl inp)
  end.

Definition install_bonsai (resp : option string) (inp : list string)
  : M W (list string) :=
  match given resp with
  | Some r => install_bonsai_body (ret r) (install_bonsai_again (pred frames) inp) inp
  | None => install_bonsai_again frames inp
  end.

(** The steps of [main] after [check_dependencies]; [inp] are the lines that
    will be typed at the prompts. *)
Definition install_steps (a : args) (inp : list string) : M W unit :=
  inp <- create_environment (env_name a) (use_conda a) (reinstall_response a) inp ;;
  install_iblrig (env_name a) ;;
  inp <- configure_iblrig_params (env_name a) (config_response a) inp ;;
  install_bonsai (bonsai_response a) inp ;;
  ret tt.

Definition main (a : args) (inp : list string) : M W unit :=
  try_except
    (check_dependencies ;;
     install_steps a inp)
    (fun msg => emit (PrintExc msg) ;;
                print "SOMETHING IS WRONG: Bad! Bad install file!").

(** One of the three checks of a response under [if __name__ == "__main__"]. *)
Definition complain (flag : string) (r : option string) : M W unit :=
  if in_RESPONSES r then ret tt
  else print ("Invalid --" ++ flag ++ " argument " ++ shown r
              ++ " Please use {RESPONSES})").

(** The arguments as [main] receives them: [--use-conda] fixes the name. *)
Definition effective (a : args) : args :=
  if use_conda a
  then mkargs "iblenv" (use_conda a) (reinstall_response a) (config_response a)
              (bonsai_response a)
  else a.

(** [RUN] after the three checks. *)
Definition RUN (a : args) : bool :=
  in_RESPONSES (bonsai_response a) && in_RESPONSES (config_response a)
  && in_RESPONSES (reinstall_response a).

(** The script part, after [parser.parse_args()] has produced [a]. *)
Definition script (a : args) (inp : list string) : M W unit :=
  print "<class 'bool'>" ;;
  let a := effective a in
  complain "bonsai-response" (bonsai_response a) ;;
  complain "config-response" (config_response a) ;;
  complain "reinstall-response" (reinstall_response a) ;;
  (if RUN a then main a inp else ret tt) ;;
  print "INFO: iblrig installation EoF".

End Steps.

(** The shell commands issued so far, oldest first, each with whether it raised. *)
Fixpoint commands (tr : list event) : list (string * bool) :=
  match tr with
  | [] => []
  | Called (System cmd) r :: rest =>
      commands rest ++ [(cmd, match r with Some _ => true | None => false end)]
  | _ :: rest => commands rest
  end.

Definition valid_answer (a : string) : bool :=
  String.eqb a "y" || String.eqb a "n".

(** *** The plan of [check_dependencies]

    The seven shell commands in the order they are written, and what the
    handler of each does when the command raises. *)
Definition planned (conda : string) : list string :=
  [ "conda install mamba -y -n base -c conda-forge";
    "mamba clean -q -y --all";
    conda ++ " update -q -y -n base -c defaults python";
    conda ++ " update -q -y -n base -c defaults conda";
    conda ++ " install -q -y -n base -c defaults pip --force-reinstall";
    conda ++ " install -q -y git";
    conda ++ " update -q -y -n base -c defaults --all" ].

Inductive policy := Continue | ReturnOne | Abort.

Definition step_policy (i : nat) : policy :=
  match i with
  | 0%nat => Continue           (* mamba *)
  | 1%nat | 2%nat => ReturnOne  (* cache, python *)
  | 3%nat | 4%nat | 5%nat => Abort   (* conda, pip, git *)
  | _ => Continue               (* remaining packages *)
  end.

Definition stops (i : nat) (raised : bool) : bool :=
  raised && match step_policy i with Continue => false | _ => true end.

(** The result that the policies give for the steps that ran, [flags] telling
    which of them raised, from step [i] on. *)
Fixpoint expected (i : nat) (flags : list bool) : result Z :=
  match flags with
  | [] => Ok 0
  | raised :: rest =>
      if stops i raised
      then match step_policy i with
           | Abort => Raise FileNotFoundError
           | _ => Ok 1
           end
      else expected (S i) rest
  end.

(** The texts of one step: what is printed before its command, the command,
    what is printed after it, and what its handler prints after the error. *)
Record step := mkstep {
  announce : string;
  cmd : string;
  done : string;
  failed : string
}.

Definition steps (conda : string) : list step :=
  [ mkstep "--->Installing mamba"
           "conda install mamba -y -n base -c conda-forge"
           "--->mamba installed... OK"
           "Could not install mamba, using conda...";
    mkstep ("--->Cleaning up " ++ conda ++ " cache")
           "mamba clean -q -y --all"
           ("--->" ++ conda ++ " cache... OK")
           ("Could not clean " ++ conda ++ " cache, aborting install...");
    mkstep "--->Updating base environment python"
           (conda ++ " update -q -y -n base -c defaults python")
           "--->python update... OK"
           "Could not update python, aborting install...";
    mkstep ("--->Updating base " ++ conda)
           (conda ++ " update -q -y -n base -c defaults conda")
           "--->{conda} update... OK"
           "Could not update conda, aborting install...";
    mkstep "--->Upgrading pip..."
           (conda ++ " install -q -y -n base -c defaults pip --force-reinstall")
           "--->pip upgrade... OK"
           "Could not upgrade pip, aborting install...";
    mkstep "--->Installing git"
           (conda ++ " install -q -y git")
           "--->git... OK"
           "Not found: git, aborting install...";
    mkstep "--->Updating remaning base packages..."
           (conda ++ " update -q -y -n base -c defaults --all")
           "--->Update of remaining packages... OK"
           "Could not update remaining packages, trying to continue install..." ].

(** How the shell commands issued so far ended, oldest first. *)
Fixpoint outcomes (tr : list event) : list (option exn) :=
  match tr with
  | [] => []
  | Called (System _) r :: rest => (outcomes rest ++ [r])%list
  | _ :: rest => outcomes rest
  end.

(** What one step leaves on the screen and in the shell, oldest first, when
    its command ended as [r]: a handler prints the error, then its text. *)
Definition step_log (st : step) (r : option exn) : list event :=
  match r with
  | None => [Print (announce st); Called (System (cmd st)) None; Print (done st)]
  | Some e => [Print (announce st); Called (System (cmd st)) (Some e);
               PrintExc e; Print (failed st)]
  end.

(** The events of the steps [sts], numbered from [i], whose commands ended as
    [rs]: nothing follows a step that stops, and the closing lines follow the
    last step. *)
Fixpoint steps_log (i : nat) (sts : list step) (rs : list (option exn))
  : list event :=
  match sts, rs with
  | [], _ => [Print bar; Print "All dependencies OK."]
  | _ :: _, [] => []
  | st :: sts', r :: rs' =>
      (step_log st r
       ++ if stops i (match r with Some _ => true | None => false end)
          then []
          else steps_log (S i) sts' rs')%list
  end.

(** All that [check_dependencies] prints and calls, oldest first, when its
    commands ended as [rs]: the tool is [conda] after a failed first step. *)
Definition expected_log (rs : list (option exn)) : list event :=
  let conda := match rs with Some _ :: _ => "conda" | _ => "mamba" end in
  Print "INFO: Checking for dependencies:" :: Print bar
  :: steps_log 0 (steps conda) rs.

(** The state in which [main] returns after catching [e] in the state [s]. *)
Definition caught {W} (e : exn) (s : state W) : state W :=
  mkstate (world s)
          (Print "SOMETHING IS WRONG: Bad! Bad install file!" :: PrintExc e
           :: trace s).

(** The steps that ran are all seven, or end with the first one that stops. *)
Fixpoint complete (i : nat) (flags : list bool) : bool :=
  match flags with
  | [] => (i =? 7)%nat
  | raised :: rest =>
      if stops i raised then match rest with [] => true | _ => false end
      else complete (S i) rest
  end.



Definition create_asked (env_name env a : string) : list event :=
  [ Print a; Input a;
    Print ("Found pre-existing environment in " ++ env
           ++ " Do you want to reinstall the environment? (y/n):");
    Print env; Called CondaEnvList None; Print bar;
    Print ("INFO: Installing " ++ env_name ++ ":") ].





(** The conda environment [env] is listed and stays listed in the world [w]:
    the query leaves [w] as it is and the pattern of [env_name] selects [env]
    first. *)
Definition env_listed {W} (O : Oracle W) (env_name env : string) (w : W) : Prop :=
  exists envs pat more,
    ask_list O CondaEnvList w = (Ok envs, w)
    /\ re_compile O ("^.+" ++ env_name ++ "$") = Ok pat
    /\ filter pat envs = env :: more
    /\ String.eqb env "" = false.

(** The configuration folder exists in the world [w]. *)
Definition params_found {W} (O : Oracle W) (w : W) : Prop :=
  ask_bool O (PathExists (iblrig_params_path O)) w = (Ok true, w).

(** No conda environment of the world [w] is selected by the pattern of
    [env_name]; the query leaves [w] as it is. *)
Definition env_missing {W} (O : Oracle W) (env_name : string) (w : W) : Prop :=
  exists envs pat,
    ask_list O CondaEnvList w = (Ok envs, w)
    /\ re_compile O ("^.+" ++ env_name ++ "$") = Ok pat
    /\ filter pat envs = [].

(** The working directory after the events [tr] (newest first) of a process
    started in [start]: where the latest successful [os.chdir] went. *)
Fixpoint cwd_after (start : string) (tr : list event) : string :=
  match tr with
  | [] => start
  | Called (Chdir p) None :: _ => p
  | _ :: r => cwd_after start r
  end.

Definition is_chdir_to (p : string) (c : call) : bool :=
  match c with
  | Chdir q => String.eqb p q
  | _ => false
  end.


(** No call to the outside and no line read among the events. *)
Definition quiet_events (tr : list event) : bool :=
  forallb (fun ev => match ev with
                     | Called _ _ | Input _ => false
                     | _ => true
                     end) tr.

End Install.

(** ** Concrete worlds and stores used in the examples *)

Module Bench.

(** A world without state: the calls selected by [fails] raise, every other
    call succeeds; [envs] is the list of conda environments, [mods] the list
    answered by the device queries.  The depth left for nested calls is what
    the limit of 1000 leaves when the script is run as a program: the frames
    of the module and of [main] are open, and a call of [print] in the
    deepest frame counts for one. *)
Definition scripted (fails : call -> bool) (envs mods : list string)
           (plat : string) : Oracle unit :=
  {| perform := fun c w => (if fails c then Some (External "down") else None, w);
     ask_bool := fun c w => (if fails c then Raise (External "down") else Ok true, w);
     ask_list := fun c w =>
       (if fails c then Raise (External "down")
        else Ok (match c with CondaEnvList => envs | _ => mods end), w);
     ask_str := fun c w =>
       (if fails c then Raise (External "down") else Ok "/home/rig", w);
     platform := plat;
     IBLRIG_ROOT_PATH := "/home/rig/iblrig";
     iblrig_params_path := "/home/rig/iblrig_params";
     path_join := String.concat "/";
     re_compile := fun pat => Ok (fun x => String.eqb x "/opt/conda/envs/iblenv");
     nested_calls := 995 |}.

Definition quiet : Oracle unit := scripted (fun _ => false) [] [] "linux".

Definition installed : Oracle unit :=
  scripted (fun _ => false) ["/opt/conda/envs/iblenv"] [] "linux".

Definition s0 : state unit := mkstate tt [].

(** A parameter store whose five calibration dates are [f2ttl], [freq],
    [lux], [water] and [ttl]. *)
Definition store5 (f2ttl freq lux water ttl : pyval) : dict pyval :=
  [ ("NAME", PStr "_iblrig_mainenlab_behavior_0");
    ("COM_BPOD", PStr "COM3");
    ("COM_ROTARY_ENCODER", PStr "COM4");
    ("COM_F2TTL", PStr "COM5");
    ("F2TTL_CALIBRATION_DATE", f2ttl);
    ("SCREEN_FREQ_TEST_DATE", freq);
    ("SCREEN_LUX_DATE", lux);
    ("WATER_CALIBRATION_DATE", water);
    ("BPOD_TTL_TEST_DATE", ttl);
    ("DATA_FOLDER_LOCAL", PStr "/iblrig_data/Subjects") ].

Definition store (d : string) : dict pyval :=
  store5 (PStr d) (PStr d) (PStr d) (PStr d) (PStr d).

Definition fails_on (c0 : call -> bool) : Oracle unit := scripted c0 [] [] "linux".

Definition is_set_zero (c : call) : bool :=
  match c with SetZeroPosition => true | _ => false end.

(** A store with one calibration date different from the others. *)
Definition store_with (k d others : string) : dict pyval :=
  let pick k' := PStr (if String.eqb k k' then d else others) in
  store5 (pick "F2TTL_CALIBRATION_DATE") (pick "SCREEN_FREQ_TEST_DATE")
         (pick "SCREEN_LUX_DATE") (pick "WATER_CALIBRATION_DATE")
         (pick "BPOD_TTL_TEST_DATE").

(** What [calibration_dates_ok] returns and which keys it logs as outdated. *)
Definition verdict (pardict : dict pyval) (today : date)
  : result bool * list (list string) :=
  let '(r, s) := Prefc.calibration_dates_ok (W := unit) pardict today s0 in
  (r, flat_map (fun ev => match ev with
                          | WarningKeys _ ks => [ks]
                          | _ => []
                          end) (trace s)).

(** A world that is the list of conda environments: removing the environment
    [iblenv] empties it, creating it lists its folder. *)
Definition conda_world : Oracle (list string) :=
  {| perform := fun c w =>
       (None,
        match c with
        | System cmd =>
            if String.eqb cmd "mamba env remove -y -n iblenv" then []
            else if String.eqb cmd "mamba create -y -n iblenv python=3.7.11"
                 then ["/opt/conda/envs/iblenv"]
                 else w
        | _ => w
        end);
     ask_bool := fun c w => (Ok false, w);
     ask_list := fun c w => (Ok (match c with CondaEnvList => w | _ => [] end), w);
     ask_str := fun c w => (Ok "/home/rig", w);
     platform := "win32";
     IBLRIG_ROOT_PATH := "C:/iblrig";
     iblrig_params_path := "C:/iblrig_params";
     path_join := String.concat "/";
     re_compile := fun pat => Ok (fun x => String.eqb x "/opt/conda/envs/iblenv");
     nested_calls := 995 |}.

Definition is_setup_bat (c : call) : bool :=
  match c with
  | SubprocessCall ["setup.bat"] => true
  | _ => false
  end.

(** A USB serial device as the WMI query shows it. *)
Definition usb_serial : Ports.wmi_object :=
  fun name =>
    if String.eqb name "Caption" then Some "USB Serial Device (COM3)"
    else if String.eqb name "Status" then Some "OK"
    else None.

(** A WMI service that answers every query with the devices of the world. *)
Definition wmi : Ports.Wmi (list Ports.wmi_object) :=
  {| Ports.import_win32com := fun w => (None, w);
     Ports.connect_server := fun w => (None, w);
     Ports.exec_query := fun w => (Ok w, w) |}.

(** A WMI service whose first query finds nothing and whose second one finds
    the devices of the world. *)
Definition wmi_late : Ports.Wmi (bool * list Ports.wmi_object)%type :=
  {| Ports.import_win32com := fun w => (None, w);
     Ports.connect_server := fun w => (None, w);
     Ports.exec_query := fun w : (bool * list Ports.wmi_object)%type =>
       (Ok (if fst w then snd w else []), (true, snd w)) |}.

Definition is_clean (c : call) : bool :=
  match c with
  | System cmd => String.eqb cmd "mamba clean -q -y --all"
  | _ => false
  end.

End Bench.

(** ** Proof steps shared by the runs of the two scripts *)

Ltac unfold_run :=
  cbv [bind lift ret raise try_except warning print emit do_call called
       query_bool query_list query_str answered world trace].

Ltac split_call :=
  match goal with
  | |- context [perform ?O ?c ?w] =>
      let e := fresh "e" in let w' := fresh "w" in
      destruct (perform O c w) as [[e|] w']
  | |- context [ask_bool ?O ?c ?w] =>
      let b := fresh "b" in let e := fresh "e" in let w' := fresh "w" in
      destruct (ask_bool O c w) as [[b|e] w']
  | |- context [ask_list ?O ?c ?w] =>
      let l := fresh "l" in let e := fresh "e" in let w' := fresh "w" in
      destruct (ask_list O c w) as [[l|e] w']
  | |- context [ask_str ?O ?c ?w] =>
      let x := fresh "x" in let e := fresh "e" in let w' := fresh "w" in
      destruct (ask_str O c w) as [[x|e] w']
  end.

(** * Properties *)

(** ** Dictionaries and [_grep_param_dict] *)

Section DictFacts.
Context {V : Type}.

Lemma dict_get_cons (k0 : string) (v0 : V) (d : dict V) (k : string) :
  dict_get ((k0, v0) :: d) k = if String.eqb k0 k then Some v0 else dict_get d k.
Proof.
  unfold dict_get. simpl. destruct (String.eqb k0 k); reflexivity.
Qed.

Lemma dict_get_set (d : dict V) (k : string) (v : V) (k' : string) :
  dict_get (dict_set d k v) k' = if String.eqb k k' then Some v else dict_get d k'.
Proof.
  induction d as [|[k0 v0] d IH]; simpl.
  - rewrite dict_get_cons. reflexivity.
  - destruct (String.eqb k0 k) eqn:E.
    + apply String.eqb_eq in E. subst k0.
      rewrite !dict_get_cons. destruct (String.eqb k k'); reflexivity.
    + rewrite !dict_get_cons, IH.
      destruct (String.eqb k0 k') eqn:E1, (String.eqb k k') eqn:E2; try reflexivity.
      apply String.eqb_eq in E1, E2. subst. rewrite String.eqb_refl in E. discriminate.
Qed.

Lemma dict_get_mem (d : dict V) (k : string) :
  mem k (dict_keys d) = match dict_get d k with Some _ => true | None => false end.
Proof.
  induction d as [|[k0 v0] d IH]; simpl; [reflexivity|].
  rewrite dict_get_cons, String.eqb_sym.
  destruct (String.eqb k0 k); simpl; [reflexivity | exact IH].
Qed.

Lemma dict_get_In (d : dict V) (k : string) (v : V) :
  dict_get d k = Some v -> In v (dict_values d).
Proof.
  induction d as [|[k0 v0] d IH]; simpl.
  - discriminate.
  - rewrite dict_get_cons. destruct (String.eqb k0 k).
    + intros [= ->]. now left.
    + intros H. right. now apply IH.
Qed.

Lemma dict_keys_length (d : dict V) : length (dict_keys d) = length d.
Proof. apply length_map. Qed.

Lemma dict_values_length (d : dict V) : length (dict_values d) = length d.
Proof. apply length_map. Qed.
End DictFacts.

Section GrepFacts.
Import Prefc.
Context (pattern : string) (pardict : dict pyval).

Lemma matching_fold (ks : list string) :
  forall (out : dict pyval) (k : string),
    dict_get (fold_left (matching_step pattern pardict) ks out) k =
    if str_in pattern k && mem k ks
    then match dict_get pardict k with
         | Some v => Some v
         | None => dict_get out k
         end
    else dict_get out k.
Proof.
  induction ks as [|k0 ks IH]; intros out k; simpl.
  - rewrite andb_false_r. reflexivity.
  - rewrite IH. unfold matching_step.
    destruct (String.eqb k k0) eqn:E.
    + apply String.eqb_eq in E. subst k0. simpl. rewrite andb_true_r.
      destruct (str_in pattern k) eqn:P; simpl.
      * destruct (dict_get pardict k) eqn:G.
        -- destruct (mem k ks); [reflexivity|].
           rewrite dict_get_set, String.eqb_refl. reflexivity.
        -- destruct (mem k ks); reflexivity.
      * reflexivity.
    + simpl.
      assert (S : dict_get (if str_in pattern k0
                            then match dict_get pardict k0 with
                                 | Some v => dict_set out k0 v
                                 | None => out
                                 end
                            else out) k = dict_get out k).
      { destruct (str_in pattern k0); [|reflexivity].
        destruct (dict_get pardict k0); [|reflexivity].
        rewrite dict_get_set, String.eqb_sym, E. reflexivity. }
      rewrite S. reflexivity.
Qed.

(** The comprehension keeps exactly the entries whose key contains the
    pattern, each with the value the store has for it. *)
Lemma matching_get (k : string) :
  dict_get (matching pattern pardict) k =
  if str_in pattern k then dict_get pardict k else None.
Proof.
  unfold matching. rewrite matching_fold.
  rewrite dict_get_mem. simpl.
  destruct (str_in pattern k); simpl; [|reflexivity].
  destruct (dict_get pardict k); reflexivity.
Qed.

Lemma grep_cases :
  _grep_param_dict pardict pattern =
  match matching pattern pardict with
  | [(_, v)] => GVal v
  | d => GDict d
  end.
Proof.
  unfold _grep_param_dict.
  destruct (matching pattern pardict) as [|[k v] [|kv d]]; reflexivity.
Qed.
End GrepFacts.

(** ** The calibration check: the paths that parse nothing *)

Section CalibrationGuards.
Import Prefc.
Context {W : Type}.

Lemma fromkeys_keys {V} (d : dict V) :
  dict_keys (@dict_fromkeys V bool d) = dict_keys d.
Proof.
  unfold dict_keys, dict_fromkeys. rewrite map_map. reflexivity.
Qed.

Lemma fromkeys_all_unset {V} (d : dict V) :
  filter (fun kv => negb (flag (snd kv))) (@dict_fromkeys V bool d)
  = dict_fromkeys d.
Proof.
  induction d as [|[k v] d IH]; simpl; [reflexivity|].
  now rewrite IH.
Qed.

Lemma fromkeys_flags {V} (d : dict V) :
  forallb flag (dict_values (@dict_fromkeys V bool d))
  = match d with [] => true | _ => false end.
Proof. destruct d as [|[k v] d]; reflexivity. Qed.

Lemma forallb_In_false {A} (f : A -> bool) (l : list A) (x : A) :
  In x l -> f x = false -> forallb f l = false.
Proof.
  intros HI Hx. destruct (forallb f l) eqn:E; [|reflexivity].
  rewrite forallb_forall in E. rewrite (E x HI) in Hx. discriminate.
Qed.

Lemma thresh_key_has_DATE (k : string) :
  mem k (dict_keys thresh) = true -> str_in "DATE" k = true.
Proof.
  unfold mem. simpl. rewrite !orb_true_iff.
  intros [H|[H|[H|[H|[H|H]]]]]; try discriminate;
    apply String.eqb_eq in H; subst k; reflexivity.
Qed.

(** Five keys in the sub-dictionary: [_grep_param_dict] returns it whole. *)
Lemma grep_DATE_dict (pardict : dict pyval) :
  keys_eq (dict_keys thresh) (dict_keys (matching "DATE" pardict)) = true ->
  _grep_param_dict pardict "DATE" = GDict (matching "DATE" pardict)
  /\ length (matching "DATE" pardict) = 5%nat.
Proof.
  unfold keys_eq. rewrite andb_true_iff. intros [HL _].
  apply Nat.eqb_eq in HL. rewrite !dict_keys_length in HL.
  change (length thresh) with 5%nat in HL.
  split; [|symmetry; exact HL].
  unfold _grep_param_dict. rewrite <- HL. reflexivity.
Qed.
End CalibrationGuards.

(** ** [_grep_param_dict] and the membership test on its result *)

(** C10. For every pattern, [_grep_param_dict] computes the dictionary of the
    entries of the store whose key contains the pattern and returns it, except
    that a dictionary of exactly one entry is replaced by that entry's bare
    value.  A membership test [needle in _grep_param_dict(pattern)] is
    therefore a substring test on the value when one key matches (a
    [TypeError] when that value is not a string) and a test on the keys when
    none or several match. *)
Theorem grep_param_dict_bare_value (pardict : dict pyval) (pattern needle : string) :
  let out := Prefc.matching pattern pardict in
  (forall k, dict_get out k = if str_in pattern k then dict_get pardict k else None)
  /\ Prefc._grep_param_dict pardict pattern =
     match out with
     | [(_, v)] => GVal v
     | d => GDict d
     end
  /\ Prefc.contains needle (Prefc._grep_param_dict pardict pattern) =
     match out with
     | [(_, PStr s)] => Ok (str_in needle s)
     | [(_, _)] => Raise TypeError
     | d => Ok (mem needle (dict_keys d))
     end.
Proof.
  intros out. split; [|split].
  - intros k. apply matching_get.
  - unfold out, Prefc._grep_param_dict.
    destruct (Prefc.matching pattern pardict) as [|[k v] [|kv d]]; reflexivity.
  - unfold out, Prefc._grep_param_dict.
    destruct (Prefc.matching pattern pardict) as [|[k v] [|kv d]]; try reflexivity.
    destruct v; reflexivity.
Qed.

(** ** Calibration dates: missing values and unexpected keys *)

(** C5. When the keys of the store that contain [DATE] are the five
    calibration keys and the value of one of them is empty or [None],
    [calibration_dates_ok] returns [False] whatever the other values are; it
    logs the two warnings and never calls [strptime]. *)
Theorem calibration_dates_ok_missing_date
        {W : Type} (pardict : dict pyval) (today : date) (s : state W)
        (k : string) (v : pyval) :
  keys_eq (dict_keys Prefc.thresh) (dict_keys (Prefc.matching "DATE" pardict)) = true ->
  mem k (dict_keys Prefc.thresh) = true ->
  dict_get pardict k = Some v ->
  truthy v = false ->
  let evs := [ WarningKeys "Outdated calibrations"
                 (dict_keys (Prefc.matching "DATE" pardict));
               Warning "Not all calibration dates are present" ] in
  Prefc.calibration_dates_ok pardict today s
  = (Ok false, mkstate (world s) (evs ++ trace s))
  /\ existsb Prefc.is_strptime evs = false.
Proof.
  intros HK Hk Hget Hv evs. split; [|reflexivity].
  destruct (grep_DATE_dict pardict HK) as [HG HL].
  assert (Hsub : dict_get (Prefc.matching "DATE" pardict) k = Some v).
  { rewrite matching_get, (thresh_key_has_DATE k Hk). exact Hget. }
  assert (Hall : forallb truthy (dict_values (Prefc.matching "DATE" pardict)) = false).
  { eapply forallb_In_false; [eapply dict_get_In; exact Hsub | exact Hv]. }
  unfold Prefc.calibration_dates_ok. rewrite HG.
  cbv [bind lift Prefc.fromkeys_iterable Prefc.as_dict ret raise].
  rewrite HK, Hall. cbv [warning emit bind ret negb].
  rewrite fromkeys_flags, fromkeys_all_unset, fromkeys_keys.
  destruct (Prefc.matching "DATE" pardict); [discriminate HL|].
  reflexivity.
Qed.

Lemma calibration_dates_ok_missing_date_witness :
  Prefc.calibration_dates_ok (W := unit)
    (Bench.store5 (PStr "2024-01-09") (PStr "2024-01-09") (PStr "")
                  (PStr "2024-01-09") (PStr "2024-01-09"))
    (mkdate 2024 1 10) Bench.s0
  = (Ok false,
     mkstate tt
       [ WarningKeys "Outdated calibrations"
           ["F2TTL_CALIBRATION_DATE"; "SCREEN_FREQ_TEST_DATE"; "SCREEN_LUX_DATE";
            "WATER_CALIBRATION_DATE"; "BPOD_TTL_TEST_DATE"];
         Warning "Not all calibration dates are present" ]).
Proof.
  apply (calibration_dates_ok_missing_date
           (Bench.store5 (PStr "2024-01-09") (PStr "2024-01-09") (PStr "")
                         (PStr "2024-01-09") (PStr "2024-01-09"))
           (mkdate 2024 1 10) Bench.s0 "SCREEN_LUX_DATE" (PStr ""));
    reflexivity.
Defined.

(** C9, as the code has it.  When the keys of the store that contain [DATE]
    are not the five calibration keys, [calibration_dates_ok] returns no
    boolean and leaves no trace: it raises [AssertionError], unless exactly
    one key contains [DATE]; then [_grep_param_dict] has returned the bare
    value and the failure comes before the assertion, an [AttributeError] for
    a string and a [TypeError] for [None] or a number. *)
Theorem calibration_dates_ok_unexpected_keys
        {W : Type} (pardict : dict pyval) (today : date) (s : state W) :
  keys_eq (dict_keys Prefc.thresh) (dict_keys (Prefc.matching "DATE" pardict)) = false ->
  Prefc.calibration_dates_ok pardict today s
  = (Raise match Prefc.matching "DATE" pardict with
           | [(_, PStr _)] => AttributeError
           | [(_, _)] => TypeError
           | _ => AssertionError
           end, s).
Proof.
  intros HK. unfold Prefc.calibration_dates_ok. rewrite grep_cases.
  destruct (Prefc.matching "DATE" pardict) as [|[k v] [|kv d]] eqn:E.
  - reflexivity.
  - destruct v; reflexivity.
  - cbv [bind lift Prefc.fromkeys_iterable Prefc.as_dict ret raise].
    rewrite HK. destruct v; reflexivity.
Qed.

Lemma calibration_dates_ok_unexpected_keys_witness :
  Prefc.calibration_dates_ok (W := unit)
    [("SCREEN_LUX_DATE", PStr "2024-01-09");
     ("WATER_CALIBRATION_DATE", PStr "2024-01-09")]
    (mkdate 2024 1 10) Bench.s0
  = (Raise AssertionError, Bench.s0).
Proof.
  apply (calibration_dates_ok_unexpected_keys
           [("SCREEN_LUX_DATE", PStr "2024-01-09");
            ("WATER_CALIBRATION_DATE", PStr "2024-01-09")]
           (mkdate 2024 1 10) Bench.s0).
  reflexivity.
Defined.

(** C9 as the specification states it fails on a store with a single [DATE]
    key: its keys are not the five expected ones, and the exception is an
    [AttributeError], not an assertion failure. *)
Lemma single_date_key_is_not_an_assertion_failure :
  let pardict :=
    [("NAME", PStr "rig"); ("F2TTL_CALIBRATION_DATE", PStr "2024-01-09")] in
  keys_eq (dict_keys Prefc.thresh) (dict_keys (Prefc.matching "DATE" pardict)) = false
  /\ fst (Prefc.calibration_dates_ok (W := unit) pardict (mkdate 2024 1 10) Bench.s0)
     = Raise AttributeError
  /\ fst (Prefc.calibration_dates_ok (W := unit) pardict (mkdate 2024 1 10) Bench.s0)
     <> Raise AssertionError.
Proof.
  cbv zeta. split; [reflexivity|]. split; [reflexivity|].
  intros H. vm_compute in H. discriminate H.
Qed.

(** ** The calibration check on dates that parse *)

Section CalibrationRun.
Import Prefc.
Context {W : Type}.

Lemma dict_set_keys {V} (d : dict V) (k : string) (v : V) :
  dict_keys (dict_set d k v)
  = if mem k (dict_keys d) then dict_keys d else (dict_keys d ++ [k])%list.
Proof.
  induction d as [|[k0 v0] d IH]; simpl; [reflexivity|].
  rewrite (String.eqb_sym k k0).
  destruct (String.eqb k0 k) eqn:E; simpl.
  - apply String.eqb_eq in E. now subst.
  - fold (mem k (dict_keys d)). rewrite IH.
    destruct (mem k (dict_keys d)); reflexivity.
Qed.

Lemma mem_In (k : string) (ks : list string) : mem k ks = true <-> In k ks.
Proof.
  unfold mem. rewrite existsb_exists. split.
  - intros (x & Hx & E). apply String.eqb_eq in E. now subst.
  - intros H. exists k. split; [exact H | apply String.eqb_refl].
Qed.

Lemma dict_set_NoDup {V} (d : dict V) (k : string) (v : V) :
  NoDup (dict_keys d) -> NoDup (dict_keys (dict_set d k v)).
Proof.
  intros H. rewrite dict_set_keys.
  destruct (mem k (dict_keys d)) eqn:E; [exact H|].
  apply NoDup_app; [exact H | repeat constructor; intros [] | ].
  intros x Hx [<-|[]]. apply mem_In in Hx. congruence.
Qed.

Lemma matching_NoDup (pattern : string) (pardict : dict pyval) :
  NoDup (dict_keys (matching pattern pardict)).
Proof.
  unfold matching.
  assert (G : forall ks out, NoDup (dict_keys out) ->
                NoDup (dict_keys (fold_left (matching_step pattern pardict) ks out))).
  { induction ks as [|k ks IH]; intros out H; simpl; [exact H|].
    apply IH. unfold matching_step.
    destruct (str_in pattern k); [|exact H].
    destruct (dict_get pardict k); [|exact H].
    now apply dict_set_NoDup. }
  apply G. constructor.
Qed.

Lemma parsed_as_keys (sub : dict pyval) (dates : dict date) :
  parsed_as sub dates -> dict_keys dates = dict_keys sub.
Proof.
  induction 1 as [|[k v] [k' d] sub dates [Hk _] _ IH]; simpl; [reflexivity|].
  simpl in Hk. now rewrite IH, Hk.
Qed.

Lemma parse_dates_parsed (sub : dict pyval) (dates : dict date) :
  parsed_as sub dates ->
  forall s : state W, fst (parse_dates sub s) = Ok dates
                      /\ world (snd (parse_dates sub s)) = world s.
Proof.
  induction 1 as [|[k v] [k' d] sub dates [Hk Hv] _ IH]; intros s.
  - split; reflexivity.
  - simpl in Hk, Hv. subst k'. cbn [parse_dates].
    cbv [bind emit lift ret]. rewrite Hv.
    specialize (IH (mkstate (world s) (Strptime v :: trace s))).
    destruct (parse_dates sub (mkstate (world s) (Strptime v :: trace s)))
      as [r s']. simpl in IH. destruct IH as [-> Hw]. split; [reflexivity|exact Hw].
Qed.

Lemma dict_get_middle {V} (done rest : dict V) (k : string) (v : V) :
  ~ In k (dict_keys done) ->
  dict_get (done ++ (k, v) :: rest)%list k = Some v.
Proof.
  induction done as [|[k0 v0] done IH]; simpl; intros H.
  - rewrite dict_get_cons, String.eqb_refl. reflexivity.
  - rewrite dict_get_cons. destruct (String.eqb k0 k) eqn:E.
    + apply String.eqb_eq in E. subst. exfalso. apply H. now left.
    + apply IH. intros HI. apply H. now right.
Qed.

Lemma dict_set_middle {V} (done rest : dict V) (k : string) (v v' : V) :
  ~ In k (dict_keys done) ->
  dict_set (done ++ (k, v) :: rest)%list k v' = (done ++ (k, v') :: rest)%list.
Proof.
  induction done as [|[k0 v0] done IH]; simpl; intros H.
  - rewrite String.eqb_refl. reflexivity.
  - destruct (String.eqb k0 k) eqn:E.
    + apply String.eqb_eq in E. subst. exfalso. apply H. now left.
    + rewrite IH; [reflexivity|]. intros HI. apply H. now right.
Qed.

Lemma compare_dates_run (today : date) (dates : dict date) (s : state W) :
  forall rest done,
    dates = (done ++ rest)%list ->
    NoDup (dict_keys dates) ->
    forallb addable rest = true ->
    compare_dates today dates (dict_keys rest)
                  (map (flagged today) done ++ dict_fromkeys rest)%list s
    = (Ok (map (flagged today) dates), s).
Proof.
  induction rest as [|[k d] rest IH]; intros done -> ND HA.
  - simpl. rewrite !app_nil_r. reflexivity.
  - simpl in HA. apply andb_true_iff in HA. destruct HA as [Ha HA].
    assert (Hk : ~ In k (dict_keys done)).
    { unfold dict_keys in ND. rewrite map_app in ND. simpl in ND.
      apply NoDup_remove_2 in ND. intros HI. apply ND.
      apply in_or_app. now left. }
    assert (Hk' : ~ In k (dict_keys (map (flagged today) done))).
    { unfold dict_keys. rewrite map_map. exact Hk. }
    cbn [dict_keys map fst compare_dates]. cbv [bind lift ret].
    rewrite (dict_get_middle done rest k d Hk).
    unfold addable in Ha. cbn [fst snd] in Ha.
    assert (Ho : older_than_window today (k, d)
                 = match dict_get thresh k with
                   | Some t => match date_add d t with
                               | Ok e => date_lt e today
                               | Raise _ => false
                               end
                   | None => false
                   end) by reflexivity.
    destruct (dict_get thresh k) as [t|]; [|discriminate Ha].
    destruct (date_add d t) as [e|]; [|discriminate Ha].
    cbn [dict_fromkeys map fst].
    rewrite (dict_set_middle _ _ k None (Some (date_lt e today)) Hk').
    specialize (IH (done ++ [(k, d)])%list).
    rewrite <- app_assoc in IH. simpl in IH.
    rewrite map_app in IH. simpl in IH. unfold flagged at 2 in IH.
    cbn [fst] in IH. rewrite Ho, <- app_assoc in IH. simpl in IH.
    apply IH; [reflexivity | exact ND | exact HA].
Qed.

Lemma flagged_values (today : date) (dates : dict date) :
  forallb flag (dict_values (map (flagged today) dates))
  = forallb (older_than_window today) dates.
Proof.
  induction dates as [|kd dates IH]; simpl; [reflexivity|].
  now rewrite <- IH.
Qed.

(** With the five keys in place and every date parsed, the check returns
    [True] exactly when every date plus its threshold lies before today. *)
Lemma calibration_dates_ok_on_parsed_dates
      (pardict : dict pyval) (today : date) (dates : dict date) (s : state W) :
  keys_eq (dict_keys thresh) (dict_keys (matching "DATE" pardict)) = true ->
  forallb truthy (dict_values (matching "DATE" pardict)) = true ->
  parsed_as (matching "DATE" pardict) dates ->
  forallb addable dates = true ->
  fst (calibration_dates_ok pardict today s)
  = Ok (forallb (older_than_window today) dates).
Proof.
  intros HK Hall HP HA.
  destruct (grep_DATE_dict pardict HK) as [HG _].
  assert (ND : NoDup (dict_keys dates)).
  { rewrite (parsed_as_keys _ _ HP). apply matching_NoDup. }
  unfold calibration_dates_ok. rewrite HG.
  cbv [bind lift Prefc.fromkeys_iterable Prefc.as_dict ret raise].
  rewrite HK, Hall. cbv [negb].
  destruct (parse_dates_parsed _ _ HP s) as [Hr _].
  destruct (parse_dates (matching "DATE" pardict) s) as [r s1].
  simpl in Hr. subst r.
  pose proof (compare_dates_run today dates s1 dates [] eq_refl ND HA) as HC.
  simpl in HC. rewrite HC, flagged_values.
  destruct (forallb (older_than_window today) dates); reflexivity.
Qed.

(** So a single calibration that is still inside its window makes the check
    fail, however old the others are. *)
Lemma calibration_dates_ok_rejects_a_date_in_its_window
      (pardict : dict pyval) (today : date) (dates : dict date) (s : state W)
      (kd : string * date) :
  keys_eq (dict_keys thresh) (dict_keys (matching "DATE" pardict)) = true ->
  forallb truthy (dict_values (matching "DATE" pardict)) = true ->
  parsed_as (matching "DATE" pardict) dates ->
  forallb addable dates = true ->
  In kd dates ->
  older_than_window today kd = false ->
  fst (calibration_dates_ok pardict today s) = Ok false.
Proof.
  intros HK Hall HP HA HI Hkd.
  rewrite (calibration_dates_ok_on_parsed_dates pardict today dates s HK Hall HP HA).
  f_equal. eapply forallb_In_false; eassumption.
Qed.
End CalibrationRun.

(** ** Calibration dates: what the comparison decides *)

(** C1, evaluated on the code.  With all five calibrations done today the
    check fails and logs every subsystem as outdated; with all five done
    four years ago it succeeds. *)
Theorem calibration_dates_ok_accepts_only_old_dates :
  Bench.verdict (Bench.store "2024-01-10") (mkdate 2024 1 10)
  = (Ok false, [[ "F2TTL_CALIBRATION_DATE"; "SCREEN_FREQ_TEST_DATE"; "SCREEN_LUX_DATE";
                  "WATER_CALIBRATION_DATE"; "BPOD_TTL_TEST_DATE" ]])
  /\ Bench.verdict (Bench.store "2020-01-10") (mkdate 2024 1 10) = (Ok true, []).
Proof. split; vm_compute; reflexivity. Qed.

(** C4, evaluated on the code with today 2024-07-10 and the other four dates
    old enough to pass.  A date whose window ends today makes the check fail
    with that subsystem logged as outdated; a date one day (seven-day window)
    or one month (month windows) older passes without a warning. *)
Theorem calibration_boundary_is_logged_outdated :
  let today := mkdate 2024 7 10 in
  let at_ k d := Bench.verdict (Bench.store_with k d "2020-01-01") today in
  at_ "F2TTL_CALIBRATION_DATE" "2024-07-03" = (Ok false, [["F2TTL_CALIBRATION_DATE"]])
  /\ at_ "SCREEN_FREQ_TEST_DATE" "2024-03-10" = (Ok false, [["SCREEN_FREQ_TEST_DATE"]])
  /\ at_ "SCREEN_LUX_DATE" "2024-03-10" = (Ok false, [["SCREEN_LUX_DATE"]])
  /\ at_ "WATER_CALIBRATION_DATE" "2024-06-10" = (Ok false, [["WATER_CALIBRATION_DATE"]])
  /\ at_ "BPOD_TTL_TEST_DATE" "2024-03-10" = (Ok false, [["BPOD_TTL_TEST_DATE"]])
  /\ at_ "F2TTL_CALIBRATION_DATE" "2024-07-02" = (Ok true, [])
  /\ at_ "SCREEN_FREQ_TEST_DATE" "2024-02-10" = (Ok true, [])
  /\ at_ "SCREEN_LUX_DATE" "2024-02-10" = (Ok true, [])
  /\ at_ "WATER_CALIBRATION_DATE" "2024-05-10" = (Ok true, [])
  /\ at_ "BPOD_TTL_TEST_DATE" "2024-02-10" = (Ok true, []).
Proof. cbv zeta. repeat split; vm_compute; reflexivity. Qed.

(** ** [alyx_server_rig_ok] *)

Section Status.
Import Prefc.
Context {W : Type} (O : Oracle W).

Lemma guarded_settle (body : M W unit) (bit : Z) (msg : string) (acc : Z)
      (s : state W) :
  guarded body bit msg acc s =
  (Ok (acc + if fst (settle msg (body s)) then bit else 0),
   snd (settle msg (body s))).
Proof.
  unfold guarded, try_except, bind, ret, warning, emit, settle.
  destruct (body s) as [[[]|e] s']; simpl; rewrite ?Z.add_0_r; reflexivity.
Qed.
End Status.

(** C2. [alyx_server_rig_ok] returns [bin] of a number below 8 whose bit 2
    tells whether [ONE()] returned, bit 1 whether the folder stored under
    [DATA_FOLDER_REMOTE] could be globbed and bit 0 whether the folder stored
    under [DATA_FOLDER_LOCAL] could be globbed, each check made in the world
    the previous one leaves; a failed check only logs its warning.  The text
    is [0b111] exactly when the three checks succeed. *)
Theorem alyx_server_rig_ok_status
        {W : Type} (O : Oracle W) (pardict : dict pyval) (s : state W) :
  let pars := Prefc._grep_param_dict pardict "" in
  let '(r, w1) := perform O ONE_new (world s) in
  let meta := match r with None => true | Some _ => false end in
  let ev2 := match r with
             | None => [Called ONE_new None]
             | Some e => [Warning "Can't connect to Alyx."; Called ONE_new (Some e)]
             end in
  let '(remote, w2, ev1) :=
    Prefc.folder_listed O pars "DATA_FOLDER_REMOTE"
                        "Can't connect to local_server." w1 in
  let '(local, w3, ev0) :=
    Prefc.folder_listed O pars "DATA_FOLDER_LOCAL"
                        "Can't find rig data folder." w2 in
  let n := Prefc.status meta remote local in
  Prefc.alyx_server_rig_ok O pardict s
  = (Ok (Prefc.bin n), mkstate w3 (ev0 ++ ev1 ++ ev2 ++ trace s))
  /\ 0 <= n < 8
  /\ Z.testbit n 2 = meta /\ Z.testbit n 1 = remote /\ Z.testbit n 0 = local
  /\ String.eqb (Prefc.bin n) "0b111" = meta && remote && local.
Proof.
  cbv zeta.
  unfold Prefc.alyx_server_rig_ok, Prefc.alyx_server_rig, Prefc.guarded,
    Prefc.list_folder, Prefc.folder_listed.
  unfold_run.
  destruct (perform O ONE_new (let (world, _) := s in world)) as [[e|] w1];
    destruct (Prefc.getitem (Prefc._grep_param_dict pardict "") "DATA_FOLDER_REMOTE")
      as [v1|e1];
    try (destruct (Prefc.Path v1) as [p1|e1']);
    try (destruct (perform O (PathGlob p1) w1) as [[g1|] w2]);
    destruct (Prefc.getitem (Prefc._grep_param_dict pardict "") "DATA_FOLDER_LOCAL")
      as [v0|e0];
    try (destruct (Prefc.Path v0) as [p0|e0']);
    repeat match goal with
           | |- context [perform O (PathGlob ?p) ?w] =>
               destruct (perform O (PathGlob p) w) as [[?|] ?]
           end;
    cbn; repeat split; try reflexivity; lia.
Qed.

(** ** Exceptions inside and outside the handlers of the probes *)

Section Handlers.
Import Prefc.
Context {W : Type} (O : Oracle W) (pardict : dict pyval) (w : W).

Lemma alyx_ok_total :
  returns (alyx_ok O (mkstate w [])) (fun tr => negb (raised tr)).
Proof.
  unfold returns, alyx_ok. unfold_run. split_call; reflexivity.
Qed.

Lemma rotary_encoder_ok_total :
  returns (rotary_encoder_ok O pardict (mkstate w []))
          (fun tr =>
             is_ok (getitem (_grep_param_dict pardict "") "COM_ROTARY_ENCODER")
             && negb (raised tr)).
Proof.
  unfold returns, rotary_encoder_ok. unfold_run.
  destruct (getitem (_grep_param_dict pardict "") "COM_ROTARY_ENCODER")
    as [port|e]; [|reflexivity].
  repeat (split_call; [reflexivity|]).
  reflexivity.
Qed.

Lemma bpod_ok_total :
  returns (bpod_ok O pardict (mkstate w []))
          (fun tr =>
             is_ok (getitem (_grep_param_dict pardict "") "COM_BPOD")
             && negb (raised tr)).
Proof.
  unfold returns, bpod_ok. unfold_run.
  destruct (getitem (_grep_param_dict pardict "") "COM_BPOD")
    as [port|e]; [|reflexivity].
  repeat (split_call; [reflexivity|]).
  reflexivity.
Qed.

Lemma f2ttl_ok_total :
  returns_under (f2ttl_ok O pardict (mkstate w []))
                (fun tr =>
                   is_ok (getitem (_grep_param_dict pardict "") "COM_F2TTL")
                   && opened F2TTL tr
                   && was_called is_ser_is_open tr).
Proof.
  unfold returns_under, f2ttl_ok. unfold_run.
  destruct (getitem (_grep_param_dict pardict "") "COM_F2TTL")
    as [port|e]; [|reflexivity].
  split_call; [reflexivity|].
  split_call; [|reflexivity].
  split_call; destruct b; reflexivity.
Qed.

Lemma bpod_modules_ok_total :
  match contains "ephys" (_grep_param_dict pardict "NAME") with
  | Raise e => bpod_modules_ok O pardict (mkstate w []) = (Raise e, mkstate w [])
  | Ok _ => returns_under (bpod_modules_ok O pardict (mkstate w []))
                          (fun tr => negb (raised tr))
  end.
Proof.
  unfold returns_under, bpod_modules_ok. unfold_run.
  destruct (contains "ephys" (_grep_param_dict pardict "NAME")) as [ephys|e];
    [|reflexivity].
  split_call; [reflexivity|].
  split_call; [|reflexivity].
  split_call; [reflexivity|].
  destruct (forallb (fun b => b) (map (fun x => mem x l) (expected_modules ephys)));
    reflexivity.
Qed.

Lemma xonar_ok_total :
  match contains "ephys" (_grep_param_dict pardict "NAME") with
  | Raise e => xonar_ok O pardict (mkstate w []) = (Raise e, mkstate w [])
  | Ok _ => returns_under (xonar_ok O pardict (mkstate w []))
                          (fun tr => negb (raised tr))
  end.
Proof.
  unfold returns_under, xonar_ok. unfold_run.
  destruct (contains "ephys" (_grep_param_dict pardict "NAME")) as [[|]|e];
    [reflexivity| |reflexivity].
  split_call; [|reflexivity].
  apply implb_true_r.
Qed.

Lemma local_server_ok_passes_on :
  passes_on O pardict "DATA_FOLDER_REMOTE" w
            (local_server_ok O pardict (mkstate w [])).
Proof.
  unfold passes_on, local_server_ok. unfold_run.
  destruct (getitem (_grep_param_dict pardict "") "DATA_FOLDER_REMOTE")
    as [v|e]; [|reflexivity].
  destruct (Path v) as [p|e]; [|reflexivity].
  split_call; [|reflexivity]. destruct b; reflexivity.
Qed.

Lemma rig_data_folder_ok_passes_on :
  passes_on O pardict "DATA_FOLDER_LOCAL" w
            (rig_data_folder_ok O pardict (mkstate w [])).
Proof.
  unfold passes_on, rig_data_folder_ok. unfold_run.
  destruct (getitem (_grep_param_dict pardict "") "DATA_FOLDER_LOCAL")
    as [v|e]; [|reflexivity].
  destruct (Path v) as [p|e]; [|reflexivity].
  split_call; [|reflexivity]. destruct b; reflexivity.
Qed.
End Handlers.

(** C3, as the code has it.  A probe turns an exception into a failure value
    when the exception is raised inside its [try] block.  [alyx_ok],
    [rotary_encoder_ok] and [bpod_ok] never raise and return [True] exactly
    when the parameter lookup and every device call succeeded; [f2ttl_ok]
    never raises and returns [True] only if the lookup, the constructor and
    [isOpen()] succeeded; [bpod_modules_ok] and [xonar_ok] never return [True]
    when a device call raised, once the [NAME] test made before their [try]
    block has passed, and pass on what that test raises.  [local_server_ok]
    and [rig_data_folder_ok] have no handler: what the lookup, [Path] or
    [exists()] raises reaches the caller. *)
Theorem probes_fail_inside_their_handler
        {W : Type} (O : Oracle W) (pardict : dict pyval) (w : W) :
  let s := mkstate w [] in
  let pars := Prefc._grep_param_dict pardict "" in
  let name_test := Prefc.contains "ephys" (Prefc._grep_param_dict pardict "NAME") in
  Prefc.returns (Prefc.alyx_ok O s) (fun tr => negb (Prefc.raised tr))
  /\ Prefc.returns (Prefc.rotary_encoder_ok O pardict s)
       (fun tr => is_ok (Prefc.getitem pars "COM_ROTARY_ENCODER")
                  && negb (Prefc.raised tr))
  /\ Prefc.returns (Prefc.bpod_ok O pardict s)
       (fun tr => is_ok (Prefc.getitem pars "COM_BPOD") && negb (Prefc.raised tr))
  /\ Prefc.returns_under (Prefc.f2ttl_ok O pardict s)
       (fun tr => is_ok (Prefc.getitem pars "COM_F2TTL")
                  && Prefc.opened F2TTL tr
                  && Prefc.was_called Prefc.is_ser_is_open tr)
  /\ match name_test with
     | Raise e => Prefc.bpod_modules_ok O pardict s = (Raise e, s)
     | Ok _ => Prefc.returns_under (Prefc.bpod_modules_ok O pardict s)
                 (fun tr => negb (Prefc.raised tr))
     end
  /\ match name_test with
     | Raise e => Prefc.xonar_ok O pardict s = (Raise e, s)
     | Ok _ => Prefc.returns_under (Prefc.xonar_ok O pardict s)
                 (fun tr => negb (Prefc.raised tr))
     end
  /\ Prefc.passes_on O pardict "DATA_FOLDER_REMOTE" w
       (Prefc.local_server_ok O pardict s)
  /\ Prefc.passes_on O pardict "DATA_FOLDER_LOCAL" w
       (Prefc.rig_data_folder_ok O pardict s).
Proof.
  cbv zeta. repeat split.
  - apply alyx_ok_total.
  - apply rotary_encoder_ok_total.
  - apply bpod_ok_total.
  - apply f2ttl_ok_total.
  - apply bpod_modules_ok_total.
  - apply xonar_ok_total.
  - apply local_server_ok_passes_on.
  - apply rig_data_folder_ok_passes_on.
Qed.

(** C3 as the specification states it fails for the two probes without a
    handler: a store without [DATA_FOLDER_REMOTE] makes [local_server_ok]
    raise [KeyError], and a [DATA_FOLDER_LOCAL] that is [None] makes
    [rig_data_folder_ok] raise [TypeError]. *)
Lemma unguarded_probes_raise :
  Prefc.local_server_ok Bench.quiet (Bench.store "2024-01-09") Bench.s0
  = (Raise KeyError, Bench.s0)
  /\ Prefc.rig_data_folder_ok Bench.quiet
       [("NAME", PStr "rig"); ("DATA_FOLDER_LOCAL", PNone)] Bench.s0
     = (Raise TypeError, Bench.s0).
Proof. split; reflexivity. Qed.

(** ** Device handles *)

Section Handles.
Import Prefc.
Context {W : Type} (O : Oracle W) (pardict : dict pyval) (w : W).

Lemma rotary_encoder_handle :
  let tr := trace (snd (rotary_encoder_ok O pardict (mkstate w []))) in
  is_open RotaryEncoder tr = opened RotaryEncoder tr && raised tr.
Proof.
  cbv zeta. unfold rotary_encoder_ok. unfold_run.
  destruct (getitem (_grep_param_dict pardict "") "COM_ROTARY_ENCODER")
    as [port|e]; [|reflexivity].
  repeat (split_call; [reflexivity|]).
  reflexivity.
Qed.

Lemma bpod_serial_handle :
  let tr := trace (snd (bpod_ok O pardict (mkstate w []))) in
  is_open BpodSerial tr = opened BpodSerial tr && raised tr.
Proof.
  cbv zeta. unfold bpod_ok. unfold_run.
  destruct (getitem (_grep_param_dict pardict "") "COM_BPOD")
    as [port|e]; [|reflexivity].
  repeat (split_call; [reflexivity|]).
  reflexivity.
Qed.

Lemma f2ttl_handle :
  let tr := trace (snd (f2ttl_ok O pardict (mkstate w []))) in
  is_open F2TTL tr = opened F2TTL tr && raised tr.
Proof.
  cbv zeta. unfold f2ttl_ok. unfold_run.
  destruct (getitem (_grep_param_dict pardict "") "COM_F2TTL")
    as [port|e]; [|reflexivity].
  split_call; [reflexivity|].
  split_call; [|reflexivity].
  split_call; reflexivity.
Qed.

Lemma bpod_modules_handle :
  let tr := trace (snd (bpod_modules_ok O pardict (mkstate w []))) in
  is_open BpodApi tr = opened BpodApi tr && raised tr.
Proof.
  cbv zeta. unfold bpod_modules_ok. unfold_run.
  destruct (contains "ephys" (_grep_param_dict pardict "NAME")) as [ephys|e];
    [|reflexivity].
  split_call; [reflexivity|].
  split_call; [|reflexivity].
  split_call; [reflexivity|].
  destruct (forallb (fun b => b) (map (fun x => mem x l) (expected_modules ephys)));
    reflexivity.
Qed.
End Handles.

(** C8, as the code has it.  After each of the four probes that open a device
    handle, the handle is still open exactly when it was opened and a later
    call of the probe raised: the probe closes it on the path without
    exception, and leaves it open when a call made on it raises, because
    [close()] is the last statement of the [try] block and the handler does
    not close. *)
Theorem handle_left_open_iff_a_call_raised
        {W : Type} (O : Oracle W) (pardict : dict pyval) (w : W) :
  let after (run : result bool * state W) := trace (snd run) in
  let left_open d tr :=
    Prefc.is_open d tr = Prefc.opened d tr && Prefc.raised tr in
  left_open RotaryEncoder (after (Prefc.rotary_encoder_ok O pardict (mkstate w [])))
  /\ left_open BpodSerial (after (Prefc.bpod_ok O pardict (mkstate w [])))
  /\ left_open F2TTL (after (Prefc.f2ttl_ok O pardict (mkstate w [])))
  /\ left_open BpodApi (after (Prefc.bpod_modules_ok O pardict (mkstate w []))).
Proof.
  cbv zeta. repeat split.
  - apply rotary_encoder_handle.
  - apply bpod_serial_handle.
  - apply f2ttl_handle.
  - apply bpod_modules_handle.
Qed.

(** C8 as the specification states it fails on the exception path: when
    [set_zero_position()] raises, [rotary_encoder_ok] returns [False] and the
    rotary encoder handle it opened has not been closed. *)
Lemma rotary_encoder_left_open :
  let run := Prefc.rotary_encoder_ok (Bench.fails_on Bench.is_set_zero)
               (Bench.store "2024-01-09") Bench.s0 in
  fst run = Ok false
  /\ trace (snd run)
     = [ Warning "Can't connect to Rotary Encoder.";
         Called SetZeroPosition (Some (External "down"));
         Called (Open RotaryEncoder (GVal (PStr "COM4"))) None ]
  /\ Prefc.is_open RotaryEncoder (trace (snd run)) = true.
Proof. cbv zeta. repeat split; reflexivity. Qed.

(** ** The installer: what a failing step does *)

Section Policy.
Import Install.
Context {W : Type} (O : Oracle W).

Lemma check_dependencies_runs (w : W) :
  let run := check_dependencies O (mkstate w []) in
  let cs := commands (trace (snd run)) in
  let flags := map snd cs in
  fst run = expected 0 flags
  /\ complete 0 flags = true
  /\ map fst cs
     = firstn (length cs) (planned (if hd false flags then "conda" else "mamba"))
  /\ rev (trace (snd run)) = expected_log (outcomes (trace (snd run))).
Proof.
  cbv zeta. unfold check_dependencies, attempt, print_exc. unfold_run.
  split_call.
  - split_call; [repeat split; reflexivity|].
    split_call; [repeat split; reflexivity|].
    split_call; [repeat split; reflexivity|].
    split_call; [repeat split; reflexivity|].
    split_call; [repeat split; reflexivity|].
    split_call; repeat split; reflexivity.
  - split_call; [repeat split; reflexivity|].
    split_call; [repeat split; reflexivity|].
    split_call; [repeat split; reflexivity|].
    split_call; [repeat split; reflexivity|].
    split_call; [repeat split; reflexivity|].
    split_call; repeat split; reflexivity.
Qed.

Lemma main_catches (a : args) (inp : list string) (s : state W) :
  main O a inp s
  = (Ok tt,
     match check_dependencies O s with
     | (Raise e, s1) => caught e s1
     | (Ok _, s1) =>
         match install_steps O a inp s1 with
         | (Ok _, s2) => s2
         | (Raise e, s2) => caught e s2
         end
     end).
Proof.
  unfold main, try_except, bind at 1.
  destruct (check_dependencies O s) as [[code|e] s1]; [|reflexivity].
  destruct (install_steps O a inp s1) as [[[]|e] s2]; reflexivity.
Qed.

Lemma main_returns (a : args) (inp : list string) (s : state W) :
  fst (main O a inp s) = Ok tt.
Proof. rewrite main_catches. reflexivity. Qed.
End Policy.

(** C6, as the code has it.  [check_dependencies] issues its seven commands
    in order ([conda] rather than [mamba] after a failed first step) and what
    it does when one raises is fixed per step.  Every handler prints the
    error and then its own text, and nothing else is printed between the
    steps: the events of a run are those of [Install.expected_log] for the
    way its commands ended.  A failure of the mamba step or of the last step
    is followed by the next step; a failure of the cache or python step makes
    the procedure return 1 at once; a failure of the conda, pip or git step
    makes it raise [FileNotFoundError]; otherwise it returns 0.  [main]
    does not look at the value returned: it goes on with the other steps,
    and whatever [check_dependencies] or a later step raises it catches,
    prints, follows with its own text, and returns normally. *)
Theorem installer_step_policy
        {W : Type} (O : Oracle W) (w : W) (a : Install.args) (inp : list string)
        (s : state W) :
  let run := Install.check_dependencies O (mkstate w []) in
  let cs := Install.commands (trace (snd run)) in
  let flags := map snd cs in
  fst run = Install.expected 0 flags
  /\ Install.complete 0 flags = true
  /\ map fst cs
     = firstn (length cs)
         (Install.planned (if hd false flags then "conda" else "mamba"))
  /\ rev (trace (snd run)) = Install.expected_log (Install.outcomes (trace (snd run)))
  /\ Install.main O a inp s
     = (Ok tt,
        match Install.check_dependencies O s with
        | (Raise e, s1) => Install.caught e s1
        | (Ok _, s1) =>
            match Install.install_steps O a inp s1 with
            | (Ok _, s2) => s2
            | (Raise e, s2) => Install.caught e s2
            end
        end)
  /\ fst (Install.main O a inp s) = Ok tt.
Proof.
  cbv zeta.
  destruct (check_dependencies_runs O w) as (H1 & H2 & H3 & H4).
  repeat split;
    [exact H1 | exact H2 | exact H3 | exact H4 | apply main_catches
    | apply main_returns].
Qed.

(** C6 as the specification states it fails at the cache step: when
    [mamba clean] raises, [check_dependencies] does not continue; it returns 1
    and the five steps after it, the git step among them, are never run. *)
Lemma failed_cache_step_stops_the_checks :
  let run := Install.check_dependencies (Bench.fails_on Bench.is_clean) Bench.s0 in
  fst run = Ok 1
  /\ Install.commands (trace (snd run))
     = [ ("conda install mamba -y -n base -c conda-forge", false);
         ("mamba clean -q -y --all", true) ].
Proof. cbv zeta. split; vm_compute; reflexivity. Qed.

(** ** The installer: prompts *)

Section Prompts.
Import Install.
Context {W : Type} (O : Oracle W).

Lemma invalid_answer (a : string) :
  valid_answer a = false -> String.eqb a "y" = false /\ String.eqb a "n" = false.
Proof. unfold valid_answer. apply orb_false_iff. Qed.




(** *** Bonsai *)




(** *** The conda environment *)

Lemma get_env_folder_listed (env_name env : string) (w : W) (tr : list event) :
  env_listed O env_name env w ->
  get_env_folder O env_name (mkstate w tr)
  = (Ok (Some env), mkstate w (Called CondaEnvList None :: tr)).
Proof.
  intros (envs & pat & more & H1 & H2 & H3 & _).
  unfold get_env_folder. unfold_run. rewrite H1, H2, H3. reflexivity.
Qed.


Lemma create_environment_valid (d : nat) (env_name env v : string)
      (rest : list string) (w : W) (tr : list event) :
  env_listed O env_name env w ->
  valid_answer v = true ->
  create_environment_again O (S d) env_name (v :: rest) (mkstate w tr)
  = (if String.eqb v "y"
     then do_call O (System ("mamba env remove -y -n " ++ env_name)) ;;
          do_call O (Rmtree env) ;;
          create_environment_again O d env_name rest
     else ret rest)
      (mkstate w (create_asked env_name env v ++ tr)).
Proof.
  intros HE H.
  cbn [create_environment_again tl]. unfold create_environment_body at 1.
  unfold bind at 1 2 3. unfold print at 1 2. unfold emit at 1 2. cbn [world trace].
  rewrite (get_env_folder_listed env_name env w _ HE).
  destruct HE as (_ & _ & _ & _ & _ & _ & HN).
  unfold given. rewrite HN. unfold input.
  destruct (String.eqb v "y") eqn:Hy.
  - unfold_run. rewrite Hy. reflexivity.
  - unfold valid_answer in H. rewrite Hy in H. simpl in H.
    unfold_run. rewrite Hy, H. reflexivity.
Qed.


(** *** The configuration folder *)

Lemma get_env_python_listed (env_name env : string) (rpip : bool) (w : W)
      (tr : list event) :
  env_listed O env_name env w ->
  get_env_python O env_name rpip (mkstate w tr)
  = (Ok (env_executable O env rpip), mkstate w (Called CondaEnvList None :: tr)).
Proof.
  intros HE. unfold get_env_python. unfold bind.
  rewrite (get_env_folder_listed env_name env w tr HE). reflexivity.
Qed.

Lemma configure_prompt (env_name env : string) (ask : M W string)
      (retry : M W (list string)) (rest unread : list string) (w : W)
      (tr : list event) :
  env_listed O env_name env w ->
  params_found O w ->
  configure_iblrig_params_body O env_name ask retry rest unread (mkstate w tr)
  = (user_input <- ask ;;
     print user_input ;;
     if String.eqb user_input "n" then ret rest
     else if String.eqb user_input "y" then
       setup_default_config O (env_executable O env false) ;;
       ret rest
     else if negb (String.eqb user_input "n") && negb (String.eqb user_input "y") then
       print "Please select either y of n" ;;
       retry
     else ret rest)
      (mkstate w
         (Print ("Found previous configuration in " ++ iblrig_params_path O
                 ++ " Do you want to reset to default config? (y/n)")
          :: Called (PathExists (iblrig_params_path O)) None
          :: Called CondaEnvList None :: Called CondaEnvList None :: Print bar
          :: Print "INFO: Setting up default project config in ../iblrig_params:"
          :: tr)).
Proof.
  intros HE HP. unfold configure_iblrig_params_body.
  unfold bind at 1 2 3. unfold print at 1 2. unfold emit at 1 2. cbn [world trace].
  rewrite (get_env_folder_listed env_name env w _ HE).
  unfold bind at 1. rewrite (get_env_python_listed env_name env false w _ HE).
  unfold bind at 1. unfold query_bool at 1. cbn [world trace].
  unfold params_found in HP. rewrite HP. cbn [answered called world trace].
  unfold bind at 1. unfold print at 1. unfold emit at 1. cbn [world trace].
  reflexivity.
Qed.




(** *** A response given on the command line

    A response that is neither [y] nor [n] is treated like a typed answer:
    the prompt comes again, this time read from the keyboard, one call
    deeper. *)

Lemma install_bonsai_invalid_response (r : string) (inp : list string) (w : W)
      (tr : list event) :
  String.eqb r "" = false ->
  valid_answer r = false ->
  install_bonsai O (Some r) inp (mkstate w tr)
  = install_bonsai_again O (pred (frames O)) inp
      (mkstate w (Print "Please answer 'y' or 'n'" :: Print r
                  :: Print "Do you want to install Bonsai now? (y/n):" :: tr)).
Proof.
  intros HN H. destruct (invalid_answer r H) as [Hy Hn].
  unfold install_bonsai, given. rewrite HN.
  unfold install_bonsai_body. unfold_run. rewrite Hy, Hn. reflexivity.
Qed.

Lemma create_environment_invalid_response (env_name env r : string)
      (inp : list string) (w : W) (tr : list event) :
  env_listed O env_name env w ->
  String.eqb r "" = false ->
  valid_answer r = false ->
  create_environment O env_name false (Some r) inp (mkstate w tr)
  = create_environment_again O (pred (frames O)) env_name inp
      (mkstate w (Print "Please answer 'y' or 'n'" :: Print r
                  :: Print ("Found pre-existing environment in " ++ env
                            ++ " Do you want to reinstall the environment? (y/n):")
                  :: Print env :: Called CondaEnvList None :: Print bar
                  :: Print ("INFO: Installing " ++ env_name ++ ":") :: tr)).
Proof.
  intros HE HN H. destruct (invalid_answer r H) as [Hy Hn].
  unfold create_environment. cbn [given]. rewrite HN.
  unfold create_environment_body at 1.
  unfold bind at 1 2 3. unfold print at 1 2. unfold emit at 1 2. cbn [world trace].
  rewrite (get_env_folder_listed env_name env w _ HE).
  destruct HE as (_ & _ & _ & _ & _ & _ & HE).
  unfold given. rewrite HE. unfold_run. rewrite Hy, Hn. reflexivity.
Qed.

Lemma configure_invalid_response (env_name env r : string)
      (inp : list string) (w : W) (tr : list event) :
  env_listed O env_name env w ->
  params_found O w ->
  String.eqb r "" = false ->
  valid_answer r = false ->
  configure_iblrig_params O env_name (Some r) inp (mkstate w tr)
  = configure_iblrig_params_again O (pred (frames O)) env_name inp
      (mkstate w (Print "Please select either y of n" :: Print r
                  :: Print ("Found previous configuration in " ++ iblrig_params_path O
                            ++ " Do you want to reset to default config? (y/n)")
                  :: Called (PathExists (iblrig_params_path O)) None
                  :: Called CondaEnvList None :: Called CondaEnvList None
                  :: Print bar
                  :: Print "INFO: Setting up default project config in ../iblrig_params:"
                  :: tr)).
Proof.
  intros HE HP HN H. destruct (invalid_answer r H) as [Hy Hn].
  unfold configure_iblrig_params, given. rewrite HN.
  rewrite (configure_prompt env_name env) by assumption.
  unfold_run. rewrite Hy, Hn. reflexivity.
Qed.
End Prompts.




(** Three invalid answers, evaluated: three prompts for them, a fourth one
    answered [n], the line typed after it left unread, and no call to the
    outside. *)
Example install_bonsai_three_invalid_answers :
  Install.install_bonsai Bench.installed None ["x"; ""; "yes"; "n"; "later"] Bench.s0
  = (Ok ["later"],
     mkstate tt
       [ Print "n"; Input "n"; Print "Do you want to install Bonsai now? (y/n):";
         Print "Please answer 'y' or 'n'"; Print "yes"; Input "yes";
         Print "Do you want to install Bonsai now? (y/n):";
         Print "Please answer 'y' or 'n'"; Print ""; Input "";
         Print "Do you want to install Bonsai now? (y/n):";
         Print "Please answer 'y' or 'n'"; Print "x"; Input "x";
         Print "Do you want to install Bonsai now? (y/n):" ]).
Proof. vm_compute. reflexivity. Qed.

(** ** Dates and parsing on concrete inputs *)

Example strptime_padded : strptime (PStr "2019-09-04") = Ok (mkdate 2019 9 4).
Proof. reflexivity. Qed.

Example strptime_unpadded : strptime (PStr "2019-9-4") = Ok (mkdate 2019 9 4).
Proof. reflexivity. Qed.

Example strptime_no_such_day : strptime (PStr "2019-02-29") = Raise ValueError.
Proof. reflexivity. Qed.

Example strptime_no_such_month : strptime (PStr "2019-13-01") = Raise ValueError.
Proof. reflexivity. Qed.

Example strptime_text_left_over : strptime (PStr "2019-12-311") = Raise ValueError.
Proof. reflexivity. Qed.

Example strptime_not_a_string : strptime (PInt 20191231) = Raise TypeError.
Proof. reflexivity. Qed.

Example week_across_new_year :
  date_add (mkdate 2019 12 28) (timedelta 7) = Ok (mkdate 2020 1 4).
Proof. reflexivity. Qed.

Example week_across_leap_day :
  date_add (mkdate 2020 2 29) (timedelta 7) = Ok (mkdate 2020 3 7).
Proof. reflexivity. Qed.

Example months_clip_the_day :
  date_add (mkdate 2019 10 31) (relativedelta 4) = Ok (mkdate 2020 2 29).
Proof. reflexivity. Qed.

Example months_past_the_last_year :
  date_add (mkdate 9999 10 1) (relativedelta 4) = Raise ValueError.
Proof. reflexivity. Qed.

(** * Further properties of the two scripts *)

(** ** The store and what [_grep_param_dict] makes of it *)

Section StoreFacts.
Import Prefc.

Lemma str_in_empty (k : string) : str_in "" k = true.
Proof. destruct k; reflexivity. Qed.

Lemma dict_get_of_In {V} (d : dict V) (k : string) (v : V) :
  NoDup (dict_keys d) -> In (k, v) d -> dict_get d k = Some v.
Proof.
  induction d as [|[k0 v0] d IH]; simpl; intros ND HI; [contradiction|].
  rewrite dict_get_cons. inversion ND as [|x l Hx ND']; subst.
  destruct HI as [E|HI].
  - inversion E; subst. now rewrite String.eqb_refl.
  - destruct (String.eqb k0 k) eqn:E; [|now apply IH].
    apply String.eqb_eq in E. subst k0. exfalso. apply Hx.
    unfold dict_keys. change k with (fst (k, v)). now apply in_map.
Qed.

Lemma In_of_dict_get {V} (d : dict V) (k : string) (v : V) :
  dict_get d k = Some v -> In (k, v) d.
Proof.
  induction d as [|[k0 v0] d IH]; simpl; [discriminate|].
  rewrite dict_get_cons. destruct (String.eqb k0 k) eqn:E.
  - apply String.eqb_eq in E. intros [= ->]. subst. now left.
  - intros H. right. now apply IH.
Qed.

Lemma dict_set_new {V} (d : dict V) (k : string) (v : V) :
  ~ In k (dict_keys d) -> dict_set d k v = (d ++ [(k, v)])%list.
Proof.
  induction d as [|[k0 v0] d IH]; simpl; intros H; [reflexivity|].
  destruct (String.eqb k0 k) eqn:E.
  - apply String.eqb_eq in E. subst. exfalso. apply H. now left.
  - rewrite IH; [reflexivity|]. intros HI. apply H. now right.
Qed.

Lemma filter_keys_incl {V} (f : string * V -> bool) (d : dict V) (k : string) :
  In k (dict_keys (filter f d)) -> In k (dict_keys d).
Proof.
  unfold dict_keys. rewrite !in_map_iff. intros ((k', v) & E & HI).
  apply filter_In in HI. exists (k', v). tauto.
Qed.

Lemma matching_fold_filter (pattern : string) (pardict : dict pyval) :
  forall rest done,
    pardict = (done ++ rest)%list ->
    NoDup (dict_keys pardict) ->
    fold_left (matching_step pattern pardict) (dict_keys rest)
              (filter (fun kv => str_in pattern (fst kv)) done)
    = filter (fun kv => str_in pattern (fst kv)) pardict.
Proof.
  induction rest as [|[k v] rest IH]; intros done E ND.
  - subst. simpl. now rewrite app_nil_r.
  - assert (Hk : ~ In k (dict_keys done)).
    { subst pardict. unfold dict_keys in ND. rewrite map_app in ND. simpl in ND.
      apply NoDup_remove_2 in ND. intros HI. apply ND.
      apply in_or_app. now left. }
    cbn [dict_keys map fst fold_left]. fold (dict_keys rest).
    assert (S : matching_step pattern pardict
                  (filter (fun kv => str_in pattern (fst kv)) done) k
                = filter (fun kv => str_in pattern (fst kv))
                         (done ++ [(k, v)])%list).
    { unfold matching_step. rewrite filter_app. simpl.
      destruct (str_in pattern k); [|now rewrite app_nil_r].
      rewrite E, (dict_get_middle done rest k v Hk).
      apply dict_set_new. intros HI. apply Hk.
      eapply filter_keys_incl. exact HI. }
    rewrite S. apply IH; [|exact ND].
    rewrite <- app_assoc. exact E.
Qed.
End StoreFacts.

(** X1. On a store whose keys are distinct, the dictionary that
    [_grep_param_dict] builds is the store filtered by the pattern: the
    matching entries with their values, in the order of the store. *)
Theorem grep_keeps_the_order_of_the_store (pardict : dict pyval) (pattern : string) :
  NoDup (dict_keys pardict) ->
  Prefc.matching pattern pardict
  = filter (fun kv => str_in pattern (fst kv)) pardict.
Proof.
  intros ND. unfold Prefc.matching.
  apply (matching_fold_filter pattern pardict pardict [] eq_refl ND).
Qed.

Lemma grep_keeps_the_order_of_the_store_witness :
  Prefc.matching "COM"
    [("COM_BPOD", PStr "COM3"); ("NAME", PStr "rig"); ("COM_F2TTL", PNone)]
  = filter (fun kv => str_in "COM" (fst kv))
      [("COM_BPOD", PStr "COM3"); ("NAME", PStr "rig"); ("COM_F2TTL", PNone)].
Proof.
  apply (grep_keeps_the_order_of_the_store
           [("COM_BPOD", PStr "COM3"); ("NAME", PStr "rig"); ("COM_F2TTL", PNone)]
           "COM").
  repeat constructor; simpl; intuition discriminate.
Defined.

(** X2. [params_comports_ok] raises [AttributeError] when exactly one key of
    the store contains [COM] (it was handed the bare value).  Otherwise it
    returns [True] exactly when every entry of the store whose key contains
    [COM] has a value that is set, and logs its warning exactly when it
    returns [False]; with no such key at all it returns [True]. *)
Theorem params_comports_ok_every_port_set
        {W : Type} (pardict : dict pyval) (s : state W) :
  if (length (Prefc.matching "COM" pardict) =? 1)%nat
  then Prefc.params_comports_ok pardict s = (Raise AttributeError, s)
  else exists b : bool,
      Prefc.params_comports_ok pardict s
      = (Ok b, if b then s
               else mkstate (world s)
                            (Warning "Not all comports are present" :: trace s))
      /\ (b = true <->
          forall k v, str_in "COM" k = true -> dict_get pardict k = Some v ->
                      truthy v = true).
Proof.
  unfold Prefc.params_comports_ok, Prefc._grep_param_dict.
  destruct (length (Prefc.matching "COM" pardict) =? 1)%nat eqn:HL.
  - destruct (Prefc.matching "COM" pardict) as [|[k v] [|kv d]];
      try discriminate HL. reflexivity.
  - cbv [bind lift Prefc.as_dict ret warning emit].
    exists (forallb truthy (dict_values (Prefc.matching "COM" pardict))).
    split.
    + destruct (forallb truthy (dict_values (Prefc.matching "COM" pardict)));
        reflexivity.
    + rewrite forallb_forall. split.
      * intros H k v Hk Hg. apply H. apply (dict_get_In _ k).
        rewrite matching_get, Hk. exact Hg.
      * intros H v Hv. unfold dict_values in Hv. apply in_map_iff in Hv.
        destruct Hv as ((k, v') & E & HI). simpl in E. subst v'.
        apply (dict_get_of_In _ _ _ (matching_NoDup "COM" pardict)) in HI.
        rewrite matching_get in HI.
        destruct (str_in "COM" k) eqn:Hk; [|discriminate HI].
        exact (H k v Hk HI).
Qed.

(** X3. A probe that reads [pars = _grep_param_dict()] and then [pars[key]]
    gets the value the store has for [key], a [KeyError] when the store has no
    such key, and a [TypeError] when the store has exactly one entry, whatever
    [key] is: the empty pattern matches every key, and a single match is
    handed back as the bare value. *)
Theorem lookup_in_the_whole_store (pardict : dict pyval) (key : string) :
  Prefc.getitem (Prefc._grep_param_dict pardict "") key
  = if (length (Prefc.matching "" pardict) =? 1)%nat
    then Raise TypeError
    else match dict_get pardict key with
         | Some v => Ok v
         | None => Raise KeyError
         end.
Proof.
  unfold Prefc._grep_param_dict.
  destruct (length (Prefc.matching "" pardict) =? 1)%nat eqn:HL.
  - destruct (Prefc.matching "" pardict) as [|[k v] [|kv d]];
      try discriminate HL. reflexivity.
  - unfold Prefc.getitem. rewrite matching_get, str_in_empty. reflexivity.
Qed.

(** X4. On a store with a single entry [k: v], whatever [k] and [v] are, the
    three serial probes return [False] without touching a device,
    [alyx_server_rig_ok] clears both folder bits, and the two folder probes
    raise [TypeError]: none of them finds its parameter, even when [k] is the
    key it looks for. *)
Theorem single_entry_store_defeats_the_probes
        {W : Type} (O : Oracle W) (k : string) (v : pyval) (w : W) :
  let pardict := [(k, v)] in
  let s := mkstate w [] in
  Prefc.rotary_encoder_ok O pardict s
  = (Ok false, mkstate w [Warning "Can't connect to Rotary Encoder."])
  /\ Prefc.bpod_ok O pardict s
     = (Ok false, mkstate w [Warning "Can't connect to Bpod."])
  /\ Prefc.f2ttl_ok O pardict s
     = (Ok false, mkstate w [Warning "Can't connect to Frame2TTL."])
  /\ Prefc.local_server_ok O pardict s = (Raise TypeError, s)
  /\ Prefc.rig_data_folder_ok O pardict s = (Raise TypeError, s)
  /\ (exists n s', Prefc.alyx_server_rig O pardict s = (Ok n, s')
                   /\ Z.testbit n 1 = false /\ Z.testbit n 0 = false).
Proof.
  cbv zeta.
  assert (G : Prefc._grep_param_dict [(k, v)] "" = GVal v).
  { unfold Prefc._grep_param_dict, Prefc.matching. simpl.
    unfold Prefc.matching_step. rewrite str_in_empty, dict_get_cons.
    now rewrite String.eqb_refl. }
  unfold Prefc.rotary_encoder_ok, Prefc.bpod_ok, Prefc.f2ttl_ok,
    Prefc.local_server_ok, Prefc.rig_data_folder_ok, Prefc.alyx_server_rig,
    Prefc.guarded, Prefc.list_folder.
  rewrite !G. unfold_run. repeat split; try reflexivity.
  split_call; do 2 eexists; repeat split; reflexivity.
Qed.

(** X5. The test [needle in _grep_param_dict(pattern)] is [False] whenever
    the number of keys that contain [pattern] is not one and [needle] itself
    does not contain [pattern].  So with no key or with several keys that
    contain [NAME], ['ephys' in _grep_param_dict("NAME")] is [False] whatever
    the names are: [bpod_modules_ok] then expects only the rotary encoder and
    the ambient module. *)
Theorem membership_needs_a_single_match
        (pardict : dict pyval) (pattern needle : string) :
  (length (Prefc.matching pattern pardict) =? 1)%nat = false ->
  str_in pattern needle = false ->
  Prefc.contains needle (Prefc._grep_param_dict pardict pattern) = Ok false.
Proof.
  intros HL HN. unfold Prefc._grep_param_dict. rewrite HL.
  unfold Prefc.contains. rewrite dict_get_mem, matching_get, HN. reflexivity.
Qed.

Lemma membership_needs_a_single_match_witness :
  Prefc.contains "ephys"
    (Prefc._grep_param_dict
       [("NAME", PStr "_iblrig_ephys_0"); ("RIG_NAME", PStr "ephys")] "NAME")
  = Ok false.
Proof.
  apply (membership_needs_a_single_match
           [("NAME", PStr "_iblrig_ephys_0"); ("RIG_NAME", PStr "ephys")]
           "NAME" "ephys"); reflexivity.
Defined.

(** ** The calibration check: its value, its assertion, its errors *)

Section CalibrationMore.
Import Prefc.
Context {W : Type}.

Lemma older_true_iff (today : date) (k : string) (d : date) :
  older_than_window today (k, d) = true
  <-> exists t e, dict_get thresh k = Some t /\ date_add d t = Ok e
                  /\ date_lt e today = true.
Proof.
  unfold older_than_window. cbn [fst snd]. split.
  - destruct (dict_get thresh k) as [t|] eqn:Ht; [|discriminate].
    destruct (date_add d t) as [e|] eqn:He; [|discriminate].
    intros H. exists t, e. repeat split; assumption.
  - intros (t & e & -> & -> & H). exact H.
Qed.

Lemma parse_dates_trace (sub : dict pyval) (dates : dict date) :
  parsed_as sub dates ->
  forall s : state W,
    parse_dates sub s
    = (Ok dates,
       mkstate (world s) (rev (map Strptime (dict_values sub)) ++ trace s)).
Proof.
  induction 1 as [|[k v] [k' d] sub dates [Hk Hv] _ IH]; intros s.
  - destruct s; reflexivity.
  - simpl in Hk, Hv. subst k'. cbn [parse_dates].
    cbv [bind emit lift ret]. rewrite Hv, IH. cbn [world trace].
    cbn [dict_values map snd rev]. rewrite <- app_assoc. reflexivity.
Qed.

Lemma parse_dates_stops (good : dict pyval) (dates : dict date) (k : string)
      (v : pyval) (rest : dict pyval) (e : exn) :
  parsed_as good dates ->
  strptime v = Raise e ->
  forall s : state W,
    parse_dates (good ++ (k, v) :: rest)%list s
    = (Raise e,
       mkstate (world s)
               (Strptime v :: rev (map Strptime (dict_values good)) ++ trace s)).
Proof.
  intros HP Hv. induction HP as [|[k0 v0] [k' d] good dates [Hk H0] _ IH]; intros s.
  - cbn [app parse_dates]. cbv [bind emit lift ret]. rewrite Hv. reflexivity.
  - simpl in Hk, H0. cbn [app parse_dates].
    cbv [bind emit lift ret]. rewrite H0, IH. cbn [world trace].
    cbn [dict_values map snd rev]. rewrite <- app_assoc. reflexivity.
Qed.

Lemma thresh_keys_NoDup : NoDup (dict_keys thresh).
Proof. repeat constructor; simpl; intuition discriminate. Qed.

Lemma sub_key_iff (pardict : dict pyval) (k : string) :
  In k (dict_keys (matching "DATE" pardict))
  <-> str_in "DATE" k = true /\ dict_get pardict k <> None.
Proof.
  rewrite <- mem_In, dict_get_mem, matching_get.
  destruct (str_in "DATE" k); [|split; [discriminate | intros [H _]; discriminate]].
  destruct (dict_get pardict k); split; try discriminate; try tauto.
  intros _. split; [reflexivity | discriminate].
Qed.

Lemma keys_eq_same_set (a b : list string) :
  NoDup a -> NoDup b ->
  (keys_eq a b = true <-> forall k, In k a <-> In k b).
Proof.
  intros Na Nb. unfold keys_eq. rewrite andb_true_iff, Nat.eqb_eq, forallb_forall.
  split.
  - intros [HL HI] k. split.
    + intros Hk. apply mem_In. now apply HI.
    + revert k. apply (NoDup_length_incl Na).
      * rewrite HL. apply le_n.
      * intros x Hx. apply mem_In. now apply HI.
  - intros H. split.
    + apply Nat.le_antisymm; apply NoDup_incl_length; try assumption;
        intros x Hx; now apply H.
    + intros x Hx. apply mem_In. now apply H.
Qed.
End CalibrationMore.

(** X6. With the five calibration keys in the store and every date set and
    parsed, and no addition running past the last representable day,
    [calibration_dates_ok] returns [True] exactly when, for every subsystem,
    the calibration date plus the threshold of the subsystem lies strictly
    before today. *)
Theorem calibration_dates_ok_true_iff_all_before_today
        {W : Type} (pardict : dict pyval) (today : date) (dates : dict date)
        (s : state W) :
  keys_eq (dict_keys Prefc.thresh) (dict_keys (Prefc.matching "DATE" pardict)) = true ->
  forallb truthy (dict_values (Prefc.matching "DATE" pardict)) = true ->
  Prefc.parsed_as (Prefc.matching "DATE" pardict) dates ->
  forallb Prefc.addable dates = true ->
  exists b : bool,
    fst (Prefc.calibration_dates_ok pardict today s) = Ok b
    /\ (b = true <->
        forall k d, In (k, d) dates ->
                    exists t e, dict_get Prefc.thresh k = Some t
                                /\ date_add d t = Ok e
                                /\ date_lt e today = true).
Proof.
  intros HK Hall HP HA.
  exists (forallb (Prefc.older_than_window today) dates). split.
  - apply calibration_dates_ok_on_parsed_dates; assumption.
  - rewrite forallb_forall. split.
    + intros H k d HI. apply older_true_iff. now apply H.
    + intros H [k d] HI. apply older_true_iff. now apply H.
Qed.

Lemma calibration_dates_ok_true_iff_all_before_today_witness :
  exists b : bool,
    fst (Prefc.calibration_dates_ok (W := unit) (Bench.store "2020-01-10")
           (mkdate 2024 1 10) Bench.s0) = Ok b
    /\ (b = true <->
        forall k d,
          In (k, d) [ ("F2TTL_CALIBRATION_DATE", mkdate 2020 1 10);
                      ("SCREEN_FREQ_TEST_DATE", mkdate 2020 1 10);
                      ("SCREEN_LUX_DATE", mkdate 2020 1 10);
                      ("WATER_CALIBRATION_DATE", mkdate 2020 1 10);
                      ("BPOD_TTL_TEST_DATE", mkdate 2020 1 10) ] ->
          exists t e, dict_get Prefc.thresh k = Some t
                      /\ date_add d t = Ok e
                      /\ date_lt e (mkdate 2024 1 10) = true).
Proof.
  apply (calibration_dates_ok_true_iff_all_before_today
           (Bench.store "2020-01-10") (mkdate 2024 1 10)
           [ ("F2TTL_CALIBRATION_DATE", mkdate 2020 1 10);
             ("SCREEN_FREQ_TEST_DATE", mkdate 2020 1 10);
             ("SCREEN_LUX_DATE", mkdate 2020 1 10);
             ("WATER_CALIBRATION_DATE", mkdate 2020 1 10);
             ("BPOD_TTL_TEST_DATE", mkdate 2020 1 10) ] Bench.s0).
  - reflexivity.
  - reflexivity.
  - repeat constructor.
  - reflexivity.
Defined.

(** X7. When all five dates are set and one of them cannot be parsed,
    [calibration_dates_ok] raises the error of [strptime] ([ValueError] for a
    malformed text, [TypeError] for a number): it returns no boolean, logs no
    warning, and has tried to parse only the dates before the offending one
    and that one. *)
Theorem calibration_dates_ok_unparsable_date
        {W : Type} (pardict : dict pyval) (today : date) (s : state W)
        (good : dict pyval) (dates : dict date) (k : string) (v : pyval)
        (rest : dict pyval) (e : exn) :
  keys_eq (dict_keys Prefc.thresh) (dict_keys (Prefc.matching "DATE" pardict)) = true ->
  forallb truthy (dict_values (Prefc.matching "DATE" pardict)) = true ->
  Prefc.matching "DATE" pardict = (good ++ (k, v) :: rest)%list ->
  Prefc.parsed_as good dates ->
  strptime v = Raise e ->
  Prefc.calibration_dates_ok pardict today s
  = (Raise e,
     mkstate (world s)
             (Strptime v :: rev (map Strptime (dict_values good)) ++ trace s)).
Proof.
  intros HK Hall HM HP Hv.
  destruct (grep_DATE_dict pardict HK) as [HG _].
  unfold Prefc.calibration_dates_ok. rewrite HG.
  cbv [bind lift Prefc.fromkeys_iterable Prefc.as_dict ret raise].
  rewrite HK, Hall. cbv [negb]. rewrite HM.
  rewrite (parse_dates_stops good dates k v rest e HP Hv). reflexivity.
Qed.

Lemma calibration_dates_ok_unparsable_date_witness :
  Prefc.calibration_dates_ok (W := unit)
    (Bench.store5 (PStr "2024-01-09") (PStr "09/01/2024") (PStr "2024-01-09")
                  (PStr "2024-01-09") (PStr "2024-01-09"))
    (mkdate 2024 1 10) Bench.s0
  = (Raise ValueError,
     mkstate tt
       (Strptime (PStr "09/01/2024")
        :: rev (map Strptime
                  (dict_values [("F2TTL_CALIBRATION_DATE", PStr "2024-01-09")]))
        ++ [])).
Proof.
  apply (calibration_dates_ok_unparsable_date
           (Bench.store5 (PStr "2024-01-09") (PStr "09/01/2024") (PStr "2024-01-09")
                         (PStr "2024-01-09") (PStr "2024-01-09"))
           (mkdate 2024 1 10) Bench.s0
           [("F2TTL_CALIBRATION_DATE", PStr "2024-01-09")]
           [("F2TTL_CALIBRATION_DATE", mkdate 2024 1 9)]
           "SCREEN_FREQ_TEST_DATE" (PStr "09/01/2024")
           [ ("SCREEN_LUX_DATE", PStr "2024-01-09");
             ("WATER_CALIBRATION_DATE", PStr "2024-01-09");
             ("BPOD_TTL_TEST_DATE", PStr "2024-01-09") ]
           ValueError).
  - reflexivity.
  - reflexivity.
  - reflexivity.
  - repeat constructor.
  - reflexivity.
Defined.

(** X8. The assertion of [calibration_dates_ok] holds exactly when the keys
    of the store that contain [DATE] are the five calibration keys: each of
    the five is a key of the store, and the store has no other key that
    contains [DATE]. *)
Theorem calibration_assertion_iff_the_five_keys (pardict : dict pyval) :
  keys_eq (dict_keys Prefc.thresh) (dict_keys (Prefc.matching "DATE" pardict)) = true
  <-> forall k, In k [ "F2TTL_CALIBRATION_DATE"; "SCREEN_FREQ_TEST_DATE";
                       "SCREEN_LUX_DATE"; "WATER_CALIBRATION_DATE";
                       "BPOD_TTL_TEST_DATE" ]
                <-> str_in "DATE" k = true /\ dict_get pardict k <> None.
Proof.
  rewrite (keys_eq_same_set _ _ thresh_keys_NoDup (matching_NoDup "DATE" pardict)).
  split; intros H k; specialize (H k).
  - rewrite <- sub_key_iff. exact H.
  - rewrite sub_key_iff. exact H.
Qed.

(** ** The calibration check never overflows on ordinary dates *)

Section DateRange.
Import Prefc.

Lemma valid_date_bounds (y m d : Z) :
  valid_date y m d = true ->
  1 <= y <= 9999 /\ 1 <= m <= 12 /\ 1 <= d <= _days_in_month y m.
Proof.
  unfold valid_date, MINYEAR, MAXYEAR.
  rewrite !andb_true_iff, !Z.leb_le. tauto.
Qed.

Lemma month_cases (m : Z) :
  1 <= m <= 12 ->
  m = 1 \/ m = 2 \/ m = 3 \/ m = 4 \/ m = 5 \/ m = 6 \/ m = 7 \/ m = 8
  \/ m = 9 \/ m = 10 \/ m = 11 \/ m = 12.
Proof. lia. Qed.

Lemma days_in_month_bounds (y m : Z) :
  1 <= m <= 12 -> 28 <= _days_in_month y m <= 31.
Proof.
  intros H. unfold _days_in_month.
  destruct (month_cases m H) as [E|[E|[E|[E|[E|[E|[E|[E|[E|[E|[E|E]]]]]]]]]]];
    subst m; simpl; destruct (_is_leap y); simpl; lia.
Qed.

Lemma days_before_month_bounds (y m : Z) :
  1 <= m <= 12 -> 0 <= _days_before_month y m <= 335.
Proof.
  intros H. unfold _days_before_month.
  destruct (month_cases m H) as [E|[E|[E|[E|[E|[E|[E|[E|[E|[E|[E|E]]]]]]]]]]];
    subst m; simpl; destruct (_is_leap y); simpl; lia.
Qed.

Lemma days_before_year_bounds (y : Z) :
  1 <= y <= 9998 -> 0 <= _days_before_year y <= 3651428.
Proof.
  intros H. unfold _days_before_year. cbv zeta.
  Z.div_mod_to_equations. lia.
Qed.

Lemma make_date_ok (y m d : Z) :
  valid_date y m d = true -> is_ok (make_date y m d) = true.
Proof. intros H. unfold make_date. now rewrite H. Qed.

Lemma add_timedelta_week (d : date) :
  valid_date (year d) (month d) (day d) = true ->
  year d <= 9998 ->
  is_ok (add_timedelta d 7) = true.
Proof.
  intros HV HY. apply valid_date_bounds in HV. destruct HV as (Hy & Hm & Hd).
  pose proof (days_in_month_bounds (year d) (month d) Hm) as B1.
  pose proof (days_before_month_bounds (year d) (month d) Hm) as B2.
  assert (B3 : 0 <= _days_before_year (year d) <= 3651428)
    by (apply days_before_year_bounds; lia).
  unfold add_timedelta, toordinal, _ymd2ord, _MAXORDINAL.
  assert (E : (0 <? _days_before_year (year d) + _days_before_month (year d) (month d)
                    + day d + 7)
              && (_days_before_year (year d) + _days_before_month (year d) (month d)
                  + day d + 7 <=? 3652059) = true).
  { rewrite andb_true_iff, Z.ltb_lt, Z.leb_le. lia. }
  rewrite E. reflexivity.
Qed.

Lemma add_relativedelta_months (d : date) (n : Z) :
  valid_date (year d) (month d) (day d) = true ->
  year d <= 9998 ->
  1 <= n <= 12 ->
  is_ok (add_relativedelta d n) = true.
Proof.
  intros HV HY Hn. apply valid_date_bounds in HV. destruct HV as (Hy & Hm & Hd).
  unfold add_relativedelta.
  destruct (12 <? month d + n) eqn:E.
  - apply Z.ltb_lt in E. apply make_date_ok.
    assert (Hm' : 1 <= month d + n - 12 <= 12) by lia.
    pose proof (days_in_month_bounds (year d + 1) (month d + n - 12) Hm') as B.
    unfold valid_date, MINYEAR, MAXYEAR.
    rewrite !andb_true_iff, !Z.leb_le. lia.
  - apply Z.ltb_ge in E. apply make_date_ok.
    assert (Hm' : 1 <= month d + n <= 12) by lia.
    pose proof (days_in_month_bounds (year d) (month d + n) Hm') as B.
    unfold valid_date, MINYEAR, MAXYEAR.
    rewrite !andb_true_iff, !Z.leb_le. lia.
Qed.

Lemma addable_before_the_last_year (k : string) (d : date) :
  In k (dict_keys thresh) ->
  valid_date (year d) (month d) (day d) = true ->
  year d <= 9998 ->
  addable (k, d) = true.
Proof.
  intros Hk HV HY. unfold addable. cbn [fst snd].
  simpl in Hk.
  destruct Hk as [<-|[<-|[<-|[<-|[<-|[]]]]]]; cbn [dict_get thresh find fst snd];
    simpl; first [ now apply add_timedelta_week
                 | apply add_relativedelta_months; [assumption | assumption | lia] ].
Qed.

Lemma strptime_valid (v : pyval) (d : date) :
  strptime v = Ok d -> valid_date (year d) (month d) (day d) = true.
Proof.
  unfold strptime, strptime_str. destruct v as [|s|n]; try discriminate.
  destruct (parse_year _) as [[y r1]|]; [|discriminate].
  destruct (parse_month r1) as [[m r2]|]; [|discriminate].
  destruct (parse_day r2) as [[dd [|c r3]]|]; try discriminate.
  unfold make_date. destruct (valid_date y m dd) eqn:E; [|discriminate].
  intros [= <-]. exact E.
Qed.
End DateRange.

(** X9. With the five calibration keys in the store and every date set and
    parsed to a year up to 9998, [calibration_dates_ok] returns a boolean: no
    addition of a threshold leaves the range of dates, so nothing is raised
    after the parsing. *)
Theorem calibration_dates_ok_returns_before_the_last_year
        {W : Type} (pardict : dict pyval) (today : date) (dates : dict date)
        (s : state W) :
  keys_eq (dict_keys Prefc.thresh) (dict_keys (Prefc.matching "DATE" pardict)) = true ->
  forallb truthy (dict_values (Prefc.matching "DATE" pardict)) = true ->
  Prefc.parsed_as (Prefc.matching "DATE" pardict) dates ->
  (forall k d, In (k, d) dates -> year d <= 9998) ->
  fst (Prefc.calibration_dates_ok pardict today s)
  = Ok (forallb (Prefc.older_than_window today) dates).
Proof.
  intros HK Hall HP HY.
  apply calibration_dates_ok_on_parsed_dates; try assumption.
  apply forallb_forall. intros [k d] HI.
  apply addable_before_the_last_year.
  - pose proof (proj1 (keys_eq_same_set _ _ thresh_keys_NoDup
                           (matching_NoDup "DATE" pardict)) HK) as HS.
    apply HS. rewrite <- (parsed_as_keys _ _ HP).
    unfold dict_keys. change k with (fst (k, d)). now apply in_map.
  - clear - HP HI. induction HP as [|[k0 v0] [k1 d1] sub dates [_ Hv] _ IH].
    + contradiction.
    + destruct HI as [E|HI]; [|now apply IH].
      inversion E; subst. simpl in Hv. now apply strptime_valid in Hv.
  - exact (HY k d HI).
Qed.

Lemma calibration_dates_ok_returns_before_the_last_year_witness :
  fst (Prefc.calibration_dates_ok (W := unit) (Bench.store "2024-01-10")
         (mkdate 2024 1 10) Bench.s0)
  = Ok (forallb (Prefc.older_than_window (mkdate 2024 1 10))
          [ ("F2TTL_CALIBRATION_DATE", mkdate 2024 1 10);
            ("SCREEN_FREQ_TEST_DATE", mkdate 2024 1 10);
            ("SCREEN_LUX_DATE", mkdate 2024 1 10);
            ("WATER_CALIBRATION_DATE", mkdate 2024 1 10);
            ("BPOD_TTL_TEST_DATE", mkdate 2024 1 10) ]).
Proof.
  apply (calibration_dates_ok_returns_before_the_last_year
           (Bench.store "2024-01-10") (mkdate 2024 1 10)
           [ ("F2TTL_CALIBRATION_DATE", mkdate 2024 1 10);
             ("SCREEN_FREQ_TEST_DATE", mkdate 2024 1 10);
             ("SCREEN_LUX_DATE", mkdate 2024 1 10);
             ("WATER_CALIBRATION_DATE", mkdate 2024 1 10);
             ("BPOD_TTL_TEST_DATE", mkdate 2024 1 10) ] Bench.s0).
  - reflexivity.
  - reflexivity.
  - repeat constructor.
  - intros k d H. simpl in H.
    destruct H as [E|[E|[E|[E|[E|[]]]]]]; inversion E; simpl; lia.
Defined.

(** ** The module probe: its value and its log agree *)

(** X10. When the Bpod answers (it opens, lists its modules and closes),
    [bpod_modules_ok] returns [True] exactly when no expected module is
    missing from the list, the expected modules being the rotary encoder and
    the ambient module, and the sound card too on an ephys rig.  It logs the
    missing modules, and only them, exactly when it returns [False]. *)
Theorem bpod_modules_ok_reports_the_missing_modules
        {W : Type} (O : Oracle W) (pardict : dict pyval) (w w1 w2 w3 : W)
        (tr : list event) (ephys : bool) (mods : list string) :
  let comport := Prefc._grep_param_dict pardict "COM_BPOD" in
  let missing :=
    filter (fun x => negb (mem x mods)) (Prefc.expected_modules ephys) in
  Prefc.contains "ephys" (Prefc._grep_param_dict pardict "NAME") = Ok ephys ->
  perform O (Open BpodApi comport) w = (None, w1) ->
  ask_list O BpodModules w1 = (Ok mods, w2) ->
  perform O (Close BpodApi) w2 = (None, w3) ->
  Prefc.bpod_modules_ok O pardict (mkstate w tr)
  = (Ok match missing with [] => true | _ => false end,
     mkstate w3
       (match missing with
        | [] => []
        | _ => [WarningKeys "Missing modules" missing]
        end
        ++ Called (Close BpodApi) None :: Called BpodModules None
           :: Called (Open BpodApi comport) None :: tr)).
Proof.
  intros comport missing HN H1 H2 H3. subst comport missing.
  unfold Prefc.bpod_modules_ok. rewrite HN. unfold_run.
  rewrite H1, H2, H3. unfold Prefc.expected_modules.
  destruct ephys; cbn [map forallb filter];
    destruct (mem "RotaryEncoder1" mods), (mem "AmbientModule1" mods);
    try destruct (mem "SoundCard1" mods); reflexivity.
Qed.

Lemma bpod_modules_ok_reports_the_missing_modules_witness :
  let O := Bench.scripted (fun _ => false) [] ["RotaryEncoder1"; "FlexModule1"] "linux" in
  let pardict := Bench.store "2024-01-09" in
  let comport := Prefc._grep_param_dict pardict "COM_BPOD" in
  let mods := ["RotaryEncoder1"; "FlexModule1"] in
  let missing :=
    filter (fun x => negb (mem x mods)) (Prefc.expected_modules false) in
  Prefc.bpod_modules_ok O pardict (mkstate tt [])
  = (Ok match missing with [] => true | _ => false end,
     mkstate tt
       (match missing with
        | [] => []
        | _ => [WarningKeys "Missing modules" missing]
        end
        ++ Called (Close BpodApi) None :: Called BpodModules None
           :: Called (Open BpodApi comport) None :: [])).
Proof.
  cbv zeta.
  apply (bpod_modules_ok_reports_the_missing_modules
           (Bench.scripted (fun _ => false) [] ["RotaryEncoder1"; "FlexModule1"] "linux")
           (Bench.store "2024-01-09") tt tt tt tt [] false
           ["RotaryEncoder1"; "FlexModule1"]); reflexivity.
Defined.

(** ** The installer without its environment, and with a fresh one *)

Section Environment.
Import Install.
Context {W : Type} (O : Oracle W).

Lemma get_env_folder_missing (env_name : string) (w : W) (tr : list event) :
  env_missing O env_name w ->
  get_env_folder O env_name (mkstate w tr)
  = (Ok None, mkstate w (Called CondaEnvList None :: tr)).
Proof.
  intros (envs & pat & H1 & H2 & H3).
  unfold get_env_folder. unfold_run. rewrite H1, H2, H3. reflexivity.
Qed.

Lemma create_environment_fresh (env_name : string) (ask : M W string)
      (retry : M W (list string)) (rest unread : list string) (w w1 : W)
      (tr : list event) :
  env_missing O env_name w ->
  perform O (System ("mamba create -y -n " ++ env_name ++ " python=3.7.11")) w
  = (None, w1) ->
  create_environment_body O env_name ask retry rest unread (mkstate w tr)
  = (Ok unread,
     mkstate w1
       (Print (env_name ++ " installed.") :: Print bar
        :: Called (System ("mamba create -y -n " ++ env_name ++ " python=3.7.11")) None
        :: Print "None" :: Called CondaEnvList None :: Print bar
        :: Print ("INFO: Installing " ++ env_name ++ ":") :: tr)).
Proof.
  intros HE HC. unfold create_environment_body.
  unfold bind at 1 2 3. unfold print at 1 2. unfold emit at 1 2. cbn [world trace].
  rewrite (get_env_folder_missing env_name w _ HE).
  cbn [given]. unfold_run. rewrite HC. reflexivity.
Qed.
End Environment.

(** X11. When no listed conda environment matches the name, whatever the
    response and the lines typed: [create_environment] asks nothing, runs the
    create command and leaves the typed lines unread; [install_iblrig] raises
    [TypeError] before any command is run; [configure_iblrig_params] raises
    [ValueError] before it looks at the configuration folder. *)
Theorem steps_without_the_environment
        {W : Type} (O : Oracle W) (env_name : string) (w w1 : W)
        (tr : list event) (resp : option string) (inp : list string) :
  Install.env_missing O env_name w ->
  perform O (System ("mamba create -y -n " ++ env_name ++ " python=3.7.11")) w
  = (None, w1) ->
  Install.create_environment O env_name false resp inp (mkstate w tr)
  = (Ok inp,
     mkstate w1
       (Print (env_name ++ " installed.") :: Print Install.bar
        :: Called (System ("mamba create -y -n " ++ env_name ++ " python=3.7.11")) None
        :: Print "None" :: Called CondaEnvList None :: Print Install.bar
        :: Print ("INFO: Installing " ++ env_name ++ ":") :: tr))
  /\ Install.install_iblrig O env_name (mkstate w tr)
     = (Raise TypeError,
        mkstate w
          (Called CondaEnvList None :: Print Install.bar
           :: Print ("INFO: Checking iblrig dependencies in " ++ env_name ++ ":")
           :: tr))
  /\ Install.configure_iblrig_params O env_name resp inp (mkstate w tr)
     = (Raise ValueError,
        mkstate w
          (Called CondaEnvList None :: Print Install.bar
           :: Print "INFO: Setting up default project config in ../iblrig_params:"
           :: tr)).
Proof.
  intros HE HC. repeat split.
  - unfold Install.create_environment.
    destruct (Install.given resp) as [r|].
    + apply create_environment_fresh; assumption.
    + unfold Install.frames. cbn [Install.create_environment_again].
      apply create_environment_fresh; assumption.
  - unfold Install.install_iblrig, Install.get_env_python.
    unfold bind at 1 2 3 4. unfold print at 1 2. unfold emit at 1 2.
    cbn [world trace].
    rewrite (get_env_folder_missing O env_name w _ HE). reflexivity.
  - assert (B : forall ask retry rest unread,
               Install.configure_iblrig_params_body O env_name ask retry rest unread
                 (mkstate w tr)
               = (Raise ValueError,
                  mkstate w
                    (Called CondaEnvList None :: Print Install.bar
                     :: Print "INFO: Setting up default project config in ../iblrig_params:"
                     :: tr))).
    { intros. unfold Install.configure_iblrig_params_body.
      unfold bind at 1 2 3. unfold print at 1 2. unfold emit at 1 2.
      cbn [world trace].
      rewrite (get_env_folder_missing O env_name w _ HE). reflexivity. }
    unfold Install.configure_iblrig_params.
    destruct (Install.given resp) as [r|]; [apply B|].
    unfold Install.frames. cbn [Install.configure_iblrig_params_again]. apply B.
Qed.

Lemma steps_without_the_environment_witness :
  let create := "mamba create -y -n " ++ "iblenv" ++ " python=3.7.11" in
  Install.create_environment Bench.conda_world "iblenv" false (Some "y") ["n"]
    (mkstate [] [])
  = (Ok ["n"],
     mkstate ["/opt/conda/envs/iblenv"]
       (Print ("iblenv" ++ " installed.") :: Print Install.bar
        :: Called (System create) None
        :: Print "None" :: Called CondaEnvList None :: Print Install.bar
        :: Print ("INFO: Installing " ++ "iblenv" ++ ":") :: []))
  /\ Install.install_iblrig Bench.conda_world "iblenv" (mkstate [] [])
     = (Raise TypeError,
        mkstate []
          (Called CondaEnvList None :: Print Install.bar
           :: Print ("INFO: Checking iblrig dependencies in " ++ "iblenv" ++ ":")
           :: []))
  /\ Install.configure_iblrig_params Bench.conda_world "iblenv" (Some "y") ["n"]
       (mkstate [] [])
     = (Raise ValueError,
        mkstate []
          (Called CondaEnvList None :: Print Install.bar
           :: Print "INFO: Setting up default project config in ../iblrig_params:"
           :: [])).
Proof.
  cbv zeta.
  apply (steps_without_the_environment Bench.conda_world "iblenv" []
           ["/opt/conda/envs/iblenv"] [] (Some "y") ["n"]).
  - exists [], (fun x => String.eqb x "/opt/conda/envs/iblenv").
    repeat split; reflexivity.
  - reflexivity.
Defined.

(** X12. Answering [y] to the reinstall prompt removes the environment and
    its folder and then creates it: when the removal takes the environment
    off the list, [create_environment] runs the remove command, [rmtree] and
    the create command in this order, asks nothing more, and returns with the
    remaining typed lines unread. *)
Theorem reinstall_removes_then_creates
        {W : Type} (O : Oracle W) (env_name env : string) (w w1 w2 w3 : W)
        (tr : list event) (rest : list string) :
  let remove := "mamba env remove -y -n " ++ env_name in
  let create := "mamba create -y -n " ++ env_name ++ " python=3.7.11" in
  Install.env_listed O env_name env w ->
  perform O (System remove) w = (None, w1) ->
  perform O (Rmtree env) w1 = (None, w2) ->
  Install.env_missing O env_name w2 ->
  perform O (System create) w2 = (None, w3) ->
  exists tr',
    Install.create_environment O env_name false None ("y" :: rest) (mkstate w tr)
    = (Ok rest, mkstate w3 tr')
    /\ Install.commands tr'
       = (Install.commands tr ++ [(remove, false); (create, false)])%list
    /\ Prefc.was_called (fun c => match c with Rmtree p => String.eqb p env
                                               | _ => false end) tr' = true.
Proof.
  intros remove create HE H1 H2 HM H3.
  unfold Install.create_environment, Install.frames. cbn [Install.given].
  rewrite (create_environment_valid O _ env_name env "y" rest w tr HE eq_refl).
  cbn [String.eqb Ascii.eqb Bool.eqb]. fold remove.
  unfold bind at 1. unfold do_call at 1. cbn [world trace]. rewrite H1.
  unfold bind at 1. unfold do_call at 1. unfold called. cbn [world trace].
  rewrite H2.
  cbn [Install.create_environment_again]. fold create in H3.
  rewrite (create_environment_fresh O env_name _ _ _ rest w2 w3 _ HM H3).
  eexists. split; [reflexivity|]. split.
  - fold create. cbn [Install.commands Install.create_asked app].
    rewrite <- app_assoc. reflexivity.
  - cbn [Prefc.was_called existsb Install.create_asked app].
    rewrite String.eqb_refl. cbn. reflexivity.
Qed.

Lemma reinstall_removes_then_creates_witness :
  let remove := "mamba env remove -y -n " ++ "iblenv" in
  let create := "mamba create -y -n " ++ "iblenv" ++ " python=3.7.11" in
  let env := "/opt/conda/envs/iblenv" in
  exists tr',
    Install.create_environment Bench.conda_world "iblenv" false None
      ("y" :: ["n"]) (mkstate [env] [])
    = (Ok ["n"], mkstate [env] tr')
    /\ Install.commands tr'
       = (Install.commands [] ++ [(remove, false); (create, false)])%list
    /\ Prefc.was_called (fun c => match c with Rmtree p => String.eqb p env
                                               | _ => false end) tr' = true.
Proof.
  cbv zeta.
  apply (reinstall_removes_then_creates Bench.conda_world "iblenv"
           "/opt/conda/envs/iblenv" ["/opt/conda/envs/iblenv"] [] []
           ["/opt/conda/envs/iblenv"] [] ["n"]).
  - exists ["/opt/conda/envs/iblenv"],
      (fun x => String.eqb x "/opt/conda/envs/iblenv"), [].
    repeat split; reflexivity.
  - reflexivity.
  - reflexivity.
  - exists [], (fun x => String.eqb x "/opt/conda/envs/iblenv").
    repeat split; reflexivity.
  - reflexivity.
Defined.

(** X13. When the environment is listed and the configuration folder does
    not exist, [configure_iblrig_params] creates the folder and runs the
    set-up script with the interpreter of the environment; it asks nothing:
    the response is not looked at and the typed lines stay unread. *)
Theorem configure_creates_a_missing_folder
        {W : Type} (O : Oracle W) (env_name env : string) (w w1 w2 : W)
        (tr : list event) (resp : option string) (inp : list string) :
  let folder := iblrig_params_path O in
  let setup :=
    SubprocessCall [Install.env_executable O env false;
                    "setup_default_config.py"; folder] in
  Install.env_listed O env_name env w ->
  ask_bool O (PathExists folder) w = (Ok false, w) ->
  perform O (Mkdir folder) w = (None, w1) ->
  perform O setup w1 = (None, w2) ->
  Install.configure_iblrig_params O env_name resp inp (mkstate w tr)
  = (Ok inp,
     mkstate w2
       (Called setup None :: Called (Mkdir folder) None
        :: Called (PathExists folder) None
        :: Called CondaEnvList None :: Called CondaEnvList None
        :: Print Install.bar
        :: Print "INFO: Setting up default project config in ../iblrig_params:"
        :: tr)).
Proof.
  intros folder setup HE HP H1 H2. subst folder setup.
  assert (B : forall ask retry rest,
             Install.configure_iblrig_params_body O env_name ask retry rest inp
               (mkstate w tr)
             = (Ok inp,
                mkstate w2
                  (Called (SubprocessCall [Install.env_executable O env false;
                                           "setup_default_config.py";
                                           iblrig_params_path O]) None
                   :: Called (Mkdir (iblrig_params_path O)) None
                   :: Called (PathExists (iblrig_params_path O)) None
                   :: Called CondaEnvList None :: Called CondaEnvList None
                   :: Print Install.bar
                   :: Print "INFO: Setting up default project config in ../iblrig_params:"
                   :: tr))).
  { intros. unfold Install.configure_iblrig_params_body.
    unfold bind at 1 2 3. unfold print at 1 2. unfold emit at 1 2.
    cbn [world trace].
    rewrite (get_env_folder_listed O env_name env w _ HE).
    unfold bind at 1. rewrite (get_env_python_listed O env_name env false w _ HE).
    unfold bind at 1. unfold query_bool at 1. cbn [world trace].
    rewrite HP. cbn [answered called world trace].
    unfold Install.setup_default_config. unfold_run. rewrite H1, H2.
    reflexivity. }
  unfold Install.configure_iblrig_params.
  destruct (Install.given resp) as [r|]; [apply B|].
  unfold Install.frames. cbn [Install.configure_iblrig_params_again]. apply B.
Qed.

Lemma configure_creates_a_missing_folder_witness :
  let O := Bench.conda_world in
  let env := "/opt/conda/envs/iblenv" in
  let folder := iblrig_params_path O in
  let setup :=
    SubprocessCall [Install.env_executable O env false;
                    "setup_default_config.py"; folder] in
  Install.configure_iblrig_params O "iblenv" (Some "n") ["x"] (mkstate [env] [])
  = (Ok ["x"],
     mkstate [env]
       (Called setup None :: Called (Mkdir folder) None
        :: Called (PathExists folder) None
        :: Called CondaEnvList None :: Called CondaEnvList None
        :: Print Install.bar
        :: Print "INFO: Setting up default project config in ../iblrig_params:"
        :: [])).
Proof.
  cbv zeta.
  apply (configure_creates_a_missing_folder Bench.conda_world "iblenv"
           "/opt/conda/envs/iblenv" ["/opt/conda/envs/iblenv"]
           ["/opt/conda/envs/iblenv"] ["/opt/conda/envs/iblenv"] []
           (Some "n") ["x"]).
  - exists ["/opt/conda/envs/iblenv"],
      (fun x => String.eqb x "/opt/conda/envs/iblenv"), [].
    repeat split; reflexivity.
  - reflexivity.
  - reflexivity.
  - reflexivity.
Defined.

(** ** Bonsai and the working directory *)

(** X14. The Bonsai set-up, started in the directory [here], ends in [here]
    again unless it has entered the Bonsai folder and a call then raised (the
    set-up program, or the change of directory back): in that case the
    process is left in the Bonsai folder.  Off Windows it changes no
    directory at all. *)
Theorem bonsai_setup_and_the_working_directory
        {W : Type} (O : Oracle W) (w w1 : W) (here : string) :
  let bonsai := path_join O [IBLRIG_ROOT_PATH O; "Bonsai"] in
  let tr := trace (snd (Install.install_bonsai_yes O (mkstate w []))) in
  ask_str O Getcwd w = (Ok here, w1) ->
  Install.cwd_after here tr
  = if Install.is_windows (platform O)
       && Prefc.was_called (Install.is_chdir_to bonsai) tr
       && Prefc.raised tr
    then bonsai else here.
Proof.
  intros bonsai tr HG. subst tr. unfold Install.install_bonsai_yes.
  destruct (Install.is_windows (platform O)); [|reflexivity].
  cbn [negb]. unfold_run. rewrite HG. fold bonsai.
  split_call.
  - reflexivity.
  - split_call.
    + cbn. rewrite String.eqb_refl. reflexivity.
    + split_call; cbn; rewrite ?String.eqb_refl, ?orb_true_r; reflexivity.
Qed.

Lemma bonsai_setup_and_the_working_directory_witness :
  let O := Bench.scripted Bench.is_setup_bat [] [] "win32" in
  let bonsai := path_join O [IBLRIG_ROOT_PATH O; "Bonsai"] in
  let tr := trace (snd (Install.install_bonsai_yes O (mkstate tt []))) in
  Install.cwd_after "/home/rig" tr
  = if Install.is_windows (platform O)
       && Prefc.was_called (Install.is_chdir_to bonsai) tr
       && Prefc.raised tr
    then bonsai else "/home/rig".
Proof.
  cbv zeta.
  apply (bonsai_setup_and_the_working_directory
           (Bench.scripted Bench.is_setup_bat [] [] "win32") tt tt "/home/rig").
  reflexivity.
Defined.

(** The set-up program fails in that world: the process stays in the Bonsai
    folder. *)
Example bonsai_setup_failed_leaves_the_folder :
  let O := Bench.scripted Bench.is_setup_bat [] [] "win32" in
  Install.cwd_after "/home/rig"
    (trace (snd (Install.install_bonsai_yes O (mkstate tt []))))
  = "/home/rig/iblrig/Bonsai".
Proof. reflexivity. Qed.

(** ** The script around [main] *)

Section Script.
Import Install.
Context {W : Type} (O : Oracle W).

Lemma main_result (a : args) (inp : list string) (s : state W) :
  main O a inp s = (Ok tt, snd (main O a inp s)).
Proof.
  pose proof (main_returns O a inp s) as H.
  destruct (main O a inp s) as [[[]|e] s']; simpl in *; congruence.
Qed.
End Script.

(** X15. The script never raises and always ends by printing its last line.
    It runs [main] exactly when each of the three responses is absent, [y] or
    [n], under the name [iblenv] when [--use-conda] is given; otherwise it
    prints its complaints, makes no call to the outside and reads nothing. *)
Theorem script_runs_main_on_valid_responses
        {W : Type} (O : Oracle W) (a : Install.args) (inp : list string)
        (s : state W) :
  let a' := Install.effective a in
  let s1 := mkstate (world s) (Print "<class 'bool'>" :: trace s) in
  let eof := Print "INFO: iblrig installation EoF" in
  Install.env_name a'
  = (if Install.use_conda a then "iblenv" else Install.env_name a)
  /\ if Install.RUN a
     then Install.script O a inp s
          = (Ok tt,
             mkstate (world (snd (Install.main O a' inp s1)))
                     (eof :: trace (snd (Install.main O a' inp s1))))
     else exists tr,
         Install.script O a inp s
         = (Ok tt, mkstate (world s) (eof :: tr ++ trace s1))
         /\ Install.quiet_events tr = true
         /\ tr <> [].
Proof.
  cbv zeta. split.
  - unfold Install.effective. destruct (Install.use_conda a); reflexivity.
  - assert (R : Install.RUN (Install.effective a) = Install.RUN a).
    { unfold Install.effective. destruct (Install.use_conda a); reflexivity. }
    assert (Eb : Install.bonsai_response (Install.effective a)
                 = Install.bonsai_response a)
      by (unfold Install.effective; destruct (Install.use_conda a); reflexivity).
    assert (Ec : Install.config_response (Install.effective a)
                 = Install.config_response a)
      by (unfold Install.effective; destruct (Install.use_conda a); reflexivity).
    assert (Er : Install.reinstall_response (Install.effective a)
                 = Install.reinstall_response a)
      by (unfold Install.effective; destruct (Install.use_conda a); reflexivity).
    unfold Install.script. cbv zeta. rewrite R, Eb, Ec, Er.
    unfold Install.RUN. unfold Install.complain.
    destruct (Install.in_RESPONSES (Install.bonsai_response a)),
             (Install.in_RESPONSES (Install.config_response a)),
             (Install.in_RESPONSES (Install.reinstall_response a));
      cbn [andb].
    + cbv [bind print emit ret]. cbn [world trace].
      rewrite main_result. reflexivity.
    + eexists [_]. (split; [reflexivity | split; [reflexivity | discriminate]]).
    + eexists [_]. (split; [reflexivity | split; [reflexivity | discriminate]]).
    + eexists [_; _]. (split; [reflexivity | split; [reflexivity | discriminate]]).
    + eexists [_]. (split; [reflexivity | split; [reflexivity | discriminate]]).
    + eexists [_; _]. (split; [reflexivity | split; [reflexivity | discriminate]]).
    + eexists [_; _]. (split; [reflexivity | split; [reflexivity | discriminate]]).
    + eexists [_; _; _]. (split; [reflexivity | split; [reflexivity | discriminate]]).
Qed.

(** ** A step that says it aborts *)

(** X16. When the cache step of [check_dependencies] raises, it prints that
    the install is aborted and returns 1, but [main] does not look at what it
    returns: it goes on to create the environment.  Here with [--use-conda]
    and an environment file that cannot be used either: the three commands
    run are the mamba install, the cache step and the creation from the
    file, and [main] returns normally after the second failure. *)
Theorem main_goes_on_after_the_cache_step
        {W : Type} (O : Oracle W) (a : Install.args) (inp : list string)
        (w w1 w2 w3 : W) (e e' : exn) :
  Install.use_conda a = true ->
  perform O (System "conda install mamba -y -n base -c conda-forge") w = (None, w1) ->
  perform O (System "mamba clean -q -y --all") w1 = (Some e, w2) ->
  perform O (System "mamba env create -f environment.yaml") w2 = (Some e', w3) ->
  exists tr,
    Install.main O a inp (mkstate w []) = (Ok tt, mkstate w3 tr)
    /\ Install.commands tr
       = [ ("conda install mamba -y -n base -c conda-forge", false);
           ("mamba clean -q -y --all", true);
           ("mamba env create -f environment.yaml", true) ]
    /\ hd (Print "") tr = Print "SOMETHING IS WRONG: Bad! Bad install file!".
Proof.
  intros HU H1 H2 H3.
  unfold Install.main, Install.install_steps, Install.check_dependencies,
    Install.attempt, Install.print_exc, Install.create_environment.
  rewrite HU.
  cbv [bind print emit ret raise try_except do_call called world trace].
  rewrite H1, H2, H3.
  eexists. split; [reflexivity|]. split; reflexivity.
Qed.

Lemma main_goes_on_after_the_cache_step_witness :
  exists tr,
    Install.main
      (Bench.fails_on (fun c => Bench.is_clean c
                                || match c with
                                   | System cmd =>
                                       String.eqb cmd "mamba env create -f environment.yaml"
                                   | _ => false
                                   end))
      (Install.mkargs "iblenv" true None None None) ["n"] (mkstate tt [])
    = (Ok tt, mkstate tt tr)
    /\ Install.commands tr
       = [ ("conda install mamba -y -n base -c conda-forge", false);
           ("mamba clean -q -y --all", true);
           ("mamba env create -f environment.yaml", true) ]
    /\ hd (Print "") tr = Print "SOMETHING IS WRONG: Bad! Bad install file!".
Proof.
  apply (main_goes_on_after_the_cache_step
           (Bench.fails_on (fun c => Bench.is_clean c
                                     || match c with
                                        | System cmd =>
                                            String.eqb cmd "mamba env create -f environment.yaml"
                                        | _ => false
                                        end))
           (Install.mkargs "iblenv" true None None None) ["n"] tt tt tt tt
           (External "down") (External "down")); reflexivity.
Defined.

(** ** Which environment is found *)

Section FirstMatch.
Context {A : Type}.

Lemma filter_first (f : A -> bool) (l : list A) :
  match filter f l with
  | [] => forall x, In x l -> f x = false
  | e :: _ => exists before after,
      l = (before ++ e :: after)%list /\ f e = true
      /\ forallb (fun x => negb (f x)) before = true
  end.
Proof.
  induction l as [|a l IH]; simpl.
  - intros x [].
  - destruct (f a) eqn:E.
    + exists [], l. repeat split; [exact E].
    + destruct (filter f l) as [|e r].
      * intros x [<-|H]; [exact E | now apply IH].
      * destruct IH as (before & after & -> & He & Hb).
        exists (a :: before), after. repeat split; [exact He|].
        simpl. now rewrite E, Hb.
Qed.
End FirstMatch.

(** X17. When conda lists its environments, [get_env_folder] returns the
    first listed environment that the pattern of the name selects, the
    environments listed before it being all rejected, and [None] exactly
    when the pattern selects none of them. *)
Theorem get_env_folder_takes_the_first_match
        {W : Type} (O : Oracle W) (env_name : string) (w w1 : W)
        (tr : list event) (envs : list string) (pat : string -> bool) :
  ask_list O CondaEnvList w = (Ok envs, w1) ->
  re_compile O ("^.+" ++ env_name ++ "$") = Ok pat ->
  exists found,
    Install.get_env_folder O env_name (mkstate w tr)
    = (Ok found, mkstate w1 (Called CondaEnvList None :: tr))
    /\ match found with
       | None => forall x, In x envs -> pat x = false
       | Some e => exists before after,
           envs = (before ++ e :: after)%list /\ pat e = true
           /\ forallb (fun x => negb (pat x)) before = true
       end.
Proof.
  intros H1 H2. unfold Install.get_env_folder. unfold_run. rewrite H1, H2.
  pose proof (filter_first pat envs) as F.
  destruct (filter pat envs) as [|e r]; eexists; split; try reflexivity; exact F.
Qed.

Lemma get_env_folder_takes_the_first_match_witness :
  exists found,
    Install.get_env_folder
      (Bench.scripted (fun _ => false)
         ["/opt/conda"; "/opt/conda/envs/iblenv"; "/opt/conda/envs/old"] [] "linux")
      "iblenv" (mkstate tt [])
    = (Ok found, mkstate tt (Called CondaEnvList None :: []))
    /\ match found with
       | None =>
           forall x,
             In x ["/opt/conda"; "/opt/conda/envs/iblenv"; "/opt/conda/envs/old"] ->
             String.eqb x "/opt/conda/envs/iblenv" = false
       | Some e => exists before after,
           ["/opt/conda"; "/opt/conda/envs/iblenv"; "/opt/conda/envs/old"]
           = (before ++ e :: after)%list
           /\ String.eqb e "/opt/conda/envs/iblenv" = true
           /\ forallb (fun x => negb (String.eqb x "/opt/conda/envs/iblenv"))
                      before = true
       end.
Proof.
  apply (get_env_folder_takes_the_first_match
           (Bench.scripted (fun _ => false)
              ["/opt/conda"; "/opt/conda/envs/iblenv"; "/opt/conda/envs/old"] []
              "linux")
           "iblenv" tt tt []
           ["/opt/conda"; "/opt/conda/envs/iblenv"; "/opt/conda/envs/old"]
           (fun x => String.eqb x "/opt/conda/envs/iblenv")); reflexivity.
Defined.

(** ** Two probes of the same device *)

(** X18. Once the Frame2TTL handle is open and [isOpen()] has answered,
    [f2ttl_ok] returns that answer whether or not [close()] then raises: a
    failing [close()] is logged but does not turn the result into [False]. *)
Theorem f2ttl_ok_returns_what_is_open_answered
        {W : Type} (O : Oracle W) (pardict : dict pyval) (w w1 w2 : W)
        (tr : list event) (port : pyval) (answer : bool) :
  Prefc.getitem (Prefc._grep_param_dict pardict "") "COM_F2TTL" = Ok port ->
  perform O (Open F2TTL (GVal port)) w = (None, w1) ->
  ask_bool O SerIsOpen w1 = (Ok answer, w2) ->
  fst (Prefc.f2ttl_ok O pardict (mkstate w tr)) = Ok answer
  /\ (fst (perform O (Close F2TTL) w2) <> None ->
      hd (Print "") (trace (snd (Prefc.f2ttl_ok O pardict (mkstate w tr))))
      = Warning "Can't connect to Frame2TTL.").
Proof.
  intros HP H1 H2. unfold Prefc.f2ttl_ok. unfold_run. rewrite HP, H1, H2.
  destruct (perform O (Close F2TTL) w2) as [[e|] w3]; split; try reflexivity.
  intros H. now contradiction H.
Qed.

Lemma f2ttl_ok_returns_what_is_open_answered_witness :
  let O := Bench.fails_on (fun c => match c with Close _ => true | _ => false end) in
  fst (Prefc.f2ttl_ok O (Bench.store "2024-01-09") (mkstate tt [])) = Ok true
  /\ (fst (perform O (Close F2TTL) tt) <> None ->
      hd (Print "")
         (trace (snd (Prefc.f2ttl_ok O (Bench.store "2024-01-09") (mkstate tt []))))
      = Warning "Can't connect to Frame2TTL.").
Proof.
  cbv zeta.
  apply (f2ttl_ok_returns_what_is_open_answered
           (Bench.fails_on (fun c => match c with Close _ => true | _ => false end))
           (Bench.store "2024-01-09") tt tt tt [] (PStr "COM5") true);
    reflexivity.
Defined.

(** X19. In the same world, bit 2 of the status that [alyx_server_rig_ok]
    computes is what [alyx_ok] returns: both are decided by the one call
    [ONE()], whatever the folders are. *)
Theorem alyx_bit_agrees_with_alyx_ok
        {W : Type} (O : Oracle W) (pardict : dict pyval) (s : state W) :
  exists (n : Z) (b : bool),
    fst (Prefc.alyx_server_rig O pardict s) = Ok n
    /\ fst (Prefc.alyx_ok O s) = Ok b
    /\ Z.testbit n 2 = b.
Proof.
  unfold Prefc.alyx_server_rig, Prefc.alyx_ok.
  unfold bind at 1 2. rewrite guarded_settle.
  unfold Prefc.settle at 1 2. unfold_run.
  split_call.
  - cbn [fst snd]. rewrite guarded_settle.
    match goal with
    | |- context [Prefc.settle ?m ?r] => destruct (Prefc.settle m r) as [remote s2]
    end.
    cbn [fst snd]. rewrite guarded_settle.
    match goal with
    | |- context [Prefc.settle ?m ?r] => destruct (Prefc.settle m r) as [local s3]
    end.
    cbn [fst snd]. do 2 eexists. split; [reflexivity|]. split; [reflexivity|].
    destruct remote, local; reflexivity.
  - cbn [fst snd]. rewrite guarded_settle.
    match goal with
    | |- context [Prefc.settle ?m ?r] => destruct (Prefc.settle m r) as [remote s2]
    end.
    cbn [fst snd]. rewrite guarded_settle.
    match goal with
    | |- context [Prefc.settle ?m ?r] => destruct (Prefc.settle m r) as [local s3]
    end.
    cbn [fst snd]. do 2 eexists. split; [reflexivity|]. split; [reflexivity|].
    destruct remote, local; reflexivity.
Qed.

(** ** [list_serial_ports] *)

Section PortsFacts.
Import Ports.
Context {W : Type} (S : Wmi W).

Lemma update_all_empty (i : nat) (devices : list wmi_object) :
  update_all [] i devices
  = match devices with [] => Ok [] | _ :: _ => Raise KeyError end.
Proof. destruct devices; reflexivity. Qed.

Lemma print_lines_trace (ls : list string) :
  forall (w : W) (tr : list event),
    print_lines ls (mkstate w tr)
    = (Ok tt, mkstate w (rev (map Print ls) ++ tr)).
Proof.
  induction ls as [|l ls IH]; intros w tr; [reflexivity|].
  cbn [print_lines]. cbv [bind print emit]. cbn [world trace].
  rewrite IH. cbn [map rev]. rewrite <- app_assoc. reflexivity.
Qed.

Lemma print_items_trace (items : list wmi_object) :
  forall (w : W) (tr : list event),
    print_items items (mkstate w tr)
    = (Ok tt, mkstate w (rev (map Print (flat_map lines_of items)) ++ tr)).
Proof.
  induction items as [|item items IH]; intros w tr; [reflexivity|].
  cbn [print_items flat_map]. unfold bind. rewrite print_lines_trace, IH.
  rewrite map_app, rev_app_distr, <- app_assoc. reflexivity.
Qed.
End PortsFacts.

(** X20. Whenever the first WMI query finds at least one device,
    [list_serial_ports] raises [KeyError]: [dev_dicts] is empty when its
    entry for the first device is looked up.  Nothing has been printed and
    the second query is never made. *)
Theorem list_serial_ports_fails_on_any_device
        {W : Type} (S : Ports.Wmi W) (w w1 w2 w3 : W) (tr : list event)
        (d : Ports.wmi_object) (ds : list Ports.wmi_object) :
  Ports.import_win32com S w = (None, w1) ->
  Ports.connect_server S w1 = (None, w2) ->
  Ports.exec_query S w2 = (Ok (d :: ds), w3) ->
  Ports.list_serial_ports S (mkstate w tr) = (Raise KeyError, mkstate w3 tr).
Proof.
  intros H1 H2 H3. unfold Ports.list_serial_ports.
  cbv [bind Ports.wmi_call Ports.wmi_query lift world trace].
  rewrite H1, H2, H3, update_all_empty. reflexivity.
Qed.

Lemma list_serial_ports_fails_on_any_device_witness :
  Ports.list_serial_ports Bench.wmi (mkstate [Bench.usb_serial] [])
  = (Raise KeyError, mkstate [Bench.usb_serial] []).
Proof.
  apply (list_serial_ports_fails_on_any_device Bench.wmi
           [Bench.usb_serial] [Bench.usb_serial] [Bench.usb_serial]
           [Bench.usb_serial] [] Bench.usb_serial []); reflexivity.
Defined.

(** X21. [list_serial_ports] prints only when its first query finds no
    device; it then prints, for every item of the second query in order, a
    line of sixty dashes followed by one line [name: value] for each of the
    twenty-one names whose attribute is not [None], and returns. *)
Theorem list_serial_ports_prints_the_second_query
        {W : Type} (S : Ports.Wmi W) (w w1 w2 w3 w4 : W) (tr : list event)
        (items : list Ports.wmi_object) :
  Ports.import_win32com S w = (None, w1) ->
  Ports.connect_server S w1 = (None, w2) ->
  Ports.exec_query S w2 = (Ok [], w3) ->
  Ports.exec_query S w3 = (Ok items, w4) ->
  Ports.list_serial_ports S (mkstate w tr)
  = (Ok tt,
     mkstate w4 (rev (map Print (flat_map Ports.lines_of items)) ++ tr)).
Proof.
  intros H1 H2 H3 H4. unfold Ports.list_serial_ports.
  cbv [bind Ports.wmi_call Ports.wmi_query lift world trace].
  rewrite H1, H2, H3. cbn [Ports.update_all]. rewrite H4.
  apply print_items_trace.
Qed.

Lemma list_serial_ports_prints_the_second_query_witness :
  Ports.list_serial_ports Bench.wmi_late (mkstate (false, [Bench.usb_serial]) [])
  = (Ok tt,
     mkstate (true, [Bench.usb_serial])
       (rev (map Print (flat_map Ports.lines_of [Bench.usb_serial])) ++ [])).
Proof.
  apply (list_serial_ports_prints_the_second_query Bench.wmi_late
           (false, [Bench.usb_serial]) (false, [Bench.usb_serial])
           (false, [Bench.usb_serial]) (true, [Bench.usb_serial])
           (true, [Bench.usb_serial]) [] [Bench.usb_serial]); reflexivity.
Defined.

(** The lines printed for that device. *)
Example lines_of_usb_serial :
  Ports.lines_of Bench.usb_serial
  = [ "------------------------------------------------------------";
      "Caption: USB Serial Device (COM3)"; "Status: OK" ].
Proof. reflexivity. Qed.
